(* ===== verification/_CoqProject ===== *)
-Q . S2P
Prelude.v
PyList.v
PyInt.v
Partition.v
VectorSum.v
Threads.v
Runtime.v
Driver.v
