(* ===== verification/Prelude.v ===== *)
(** * A verification of whohenrique/threading: parallel vector sum

    The program ([src/main.py], 95 lines of Python) sums a random vector
    of integers twice: once with the built-in [sum] and once with
    [num_threads] threads, each summing a contiguous chunk of the vector
    into its own slot of a shared list [total_sum], after which the main
    thread joins every thread and sums the slots.  It times both runs with
    [time.time()], asserts that the two sums agree, and plots the
    parallel time against the thread count.  It reads the vector size
    and the thread count from standard input with [int(input(...))].

    ** Parts of the program and where they are modelled

    - [Prelude] (this file): exceptions ([PyExc]), a computation that
      may raise ([PyResult], a monad with stdpp's [x ← m; k] notation),
      the built-in [sum] ([py_sum], a left fold from 0 as CPython adds),
      the rewrite database [pysimpl], the hint database [pyauto] and the
      shared list and integer lemmas.
    - [PyList]: CPython's semantics of the list and int operations the
      code uses: [//] raising [ZeroDivisionError] ([py_floordiv]),
      [range] ([py_range]), [[0] * n] ([py_list_mul]), slicing
      [l[s:e]] with negative indices and clamping ([py_slice]), and
      [l[i] = x] raising [IndexError] ([py_setitem]).
    - [PyInt]: CPython's [int(s)] on a line of input ([py_int]: leading
      whitespace [lstrip], sign [take_sign], digits with single
      underscores [scan_digits], trailing whitespace, the 4300-digit limit
      [int_max_str_digits]; [ValueError] otherwise), and the decimal text
      [py_repr] of an int, which states the round trip.
    - [Partition] (the spec's Partitioner): lines 25-28 of
      [_sum_vector_with_threads], the arguments [(start, end, i)] of each
      thread ([chunk_args], [thread_args], [partition]) and the notion of
      chunks tiling an index range ([tiles]).
    - [VectorSum] (the spec's Parallel Reducer, functional reference):
      the class's attributes ([VectorSum]), [_sum_vector], the thread body
      [partial_sum] (lines 22-23), a thread run to its end ([run_thread]:
      an exception ends the thread and leaves [total_sum] unchanged, as
      Python's [threading] does) and [_sum_vector_with_threads] with the
      threads run one after the other in start order.
    - [Threads] (the Parallel Reducer's concurrency): the same method as a
      step relation [step] on configurations (the main thread's position
      [mstate], the list [threads] with each thread's status [tstatus],
      the shared [total_sum]).  The main thread creates and starts one
      thread per iteration, leaves the loop, joins the threads in order
      (a join waits until its thread has terminated) and returns
      [sum(total_sum)]; each worker evaluates its slice sum and stores
      it, in two atomic steps; any enabled step of any thread may come
      next, so every interleaving is covered.
    - [Runtime]: [random.randint] and [time.time()] as interfaces
      ([RandomSource] with its contract [RandomLaws], and [Clock], with no
      monotonicity assumed since [time.time()] promises none), a state and
      error monad [io] over the [World] (generator, clock, the lines left
      on standard input, printed output), [input()] ([py_input], raising
      [EOFError] at the end of the input), [__init__],
      [_generate_random_vector],
      [measure_sequential_time] and [measure_parallel_time], with
      concrete instances (a linear congruential generator, a ticking
      clock, a wall clock replaying readings).
    - [Driver]: [ExecutionTimeGraph.generate_graph] (the two loops, the
      plotted series, the axis labels, legend, title and [plt.show()]) and
      [main]: the two prompts read with [read_int] ([int(input(...))]),
      then [main_after_input] (construction, the two printed lines, the
      assertion of line 85, the graph).

    The files build on each other in that order; [Driver] parses its
    input with [PyInt]; [Threads] and [Runtime]
    both use [VectorSum]'s functional reference, [Threads] proving that
    the real threads refine it and [Runtime] calling it from
    [measure_parallel_time].

    ** What is proved

    - Partition: for [num_threads >= 1] and [size >= 0], exactly
      [num_threads] chunks tiling [[0, size)] (first at 0, last ending at
      [size], adjacent), each index in exactly one chunk, chunk [i] of
      length [size // num_threads] except the last, which takes the
      remainder, and the chunk slices concatenating to the vector.
    - VectorSum: the equivalence of the threaded and the sequential sum
      for every object [__init__] can build ([vs_wf]) and every
      [num_threads >= 1]; no thread's store can raise; [num_threads = 0]
      raises [ZeroDivisionError]; a negative [num_threads] returns 0.
    - Threads: an invariant of every reachable configuration ([inv]);
      safety (a returned result is the sequential sum), the barrier (all
      threads are done when the main thread returns), disjoint slots, no
      failing worker, no deadlock (stuck exactly when returned or
      raised), termination of every interleaving (the measure [measure]
      decreases at each step), inevitability (on every path, whatever the
      scheduler does, the main thread reaches its return of the sequential
      sum: [eventually], defined in this file), and the refinement: every
      finished interleaving has the outcome of the functional
      [_sum_vector_with_threads].
    - PyInt: lemmas that check the model of [int] against CPython's
      documented behaviour (the round trip [int(ws + str(z) + ws) = z]
      for every [z] of at most 4300 digits, the digit limit, the accepted
      and rejected literals); they validate the library model the driver
      relies on and are not properties of [main.py].
    - Runtime: construction establishes [vs_wf] and, given [randint]'s
      bounds, the type [vs_typed] (a decidable predicate: elements in
      [[1, 100]]); for every clock, each measurement returns the
      difference of two successive readings taken around the sum (which
      [time.time()] lets be negative), and the parallel one raises after a
      single reading when the threaded sum raises.
    - Driver: on two input lines [int] accepts, [main]'s assertion holds
      for [num_threads >= 1] and fails for a negative [num_threads] and a
      nonempty vector, and [num_threads = 0] raises after the first
      printed line; a first line [int] rejects raises [ValueError] after
      one prompt, an empty input [EOFError]; the program's graph has one
      series of six times per size, then its labels, legend and title; a
      zero thread count makes the graph raise.

    ** Bounds, fuel and what is not modelled

    No definition of the program needs fuel: every loop runs over a
    finite list and is a structural recursion (the digit loop of [int]
    consumes one or two characters per step), and the thread semantics
    is a relation whose termination is proved.  Only [py_repr], the
    decimal text used to state the round trip, takes fuel: [log2 |z| + 1]
    digits, enough since [|z| < 2 ^ (log2 |z| + 1) <= 10 ^ (log2 |z| + 1)]
    ([repr_fuel]).  Python ints are
    unbounded; they are [Z] with no wrap-around, and [//] is [Z.div],
    which rounds toward minus infinity as Python does.  Clock readings
    are integers rather than floats.  Strings are byte strings read as
    Latin-1 code points, so [int] sees only the whitespace and digits of
    that range; the text of the printed lines (the [:.4f] formatting of a
    float) is not modelled: the printed values are recorded in the world's
    output, as are the prompts and the calls to matplotlib.  The module
    imports and the [if __name__ == "__main__"] guard are not modelled,
    nor matplotlib's rendering, a library the program only calls.  A worker reads
    the vector in one atomic step, which is sound because no thread
    writes it. *)

From stdpp Require Export base list numbers relations.
From Stdlib Require Export ZArith Lia.

Open Scope Z_scope.

Declare Scope py_scope.
Delimit Scope py_scope with py.

(** ** Python exceptions and fallible results *)

(** The exceptions the modelled code can raise. *)
Inductive PyExc :=
  | ZeroDivisionError
  | IndexError
  | AssertionError
  | ValueError
  | EOFError.

#[export] Instance PyExc_eq_dec : EqDecision PyExc.
Proof. solve_decision. Defined.

(** A computation that returns a value or raises an exception. *)
Inductive PyResult (A : Type) :=
  | Ok (a : A)
  | Raise (e : PyExc).
Arguments Ok {A} a.
Arguments Raise {A} e.

#[export] Instance PyResult_ret : MRet PyResult := λ A a, Ok a.
#[export] Instance PyResult_bind : MBind PyResult :=
  λ A B f m, match m with Ok a => f a | Raise e => Raise e end.

Lemma bind_Ok {A B} (a : A) (f : A → PyResult B) : (Ok a ≫= f) = f a.
Proof. reflexivity. Qed.

Lemma bind_Raise {A B} (e : PyExc) (f : A → PyResult B) : (Raise e ≫= f) = Raise e.
Proof. reflexivity. Qed.

Lemma mret_Ok {A} (a : A) : mret a = Ok a.
Proof. reflexivity. Qed.

(** ** The built-in [sum] on a list of ints: [sum(l)] adds left to right
    from the start value 0. *)

Definition py_sum (l : list Z) : Z := fold_left Z.add l 0.

Lemma fold_add_start (l : list Z) (a : Z) : fold_left Z.add l a = a + py_sum l.
Proof.
  unfold py_sum. revert a. induction l as [|x l IH]; intros a; simpl; [lia|].
  rewrite (IH (a + x)), (IH (0 + x)). lia.
Qed.

Lemma py_sum_nil : py_sum [] = 0.
Proof. reflexivity. Qed.

Lemma py_sum_cons (x : Z) (l : list Z) : py_sum (x :: l) = x + py_sum l.
Proof. unfold py_sum at 1. simpl. rewrite fold_add_start. lia. Qed.

Lemma py_sum_app (l1 l2 : list Z) : py_sum (l1 ++ l2) = py_sum l1 + py_sum l2.
Proof. unfold py_sum at 1. rewrite fold_left_app, fold_add_start. reflexivity. Qed.

Create Rewrite HintDb pysimpl.
(** Lemmas [auto] uses to discharge the side conditions of the model
    (bounds of slices and chunk indices). *)
Create HintDb pyauto.
#[export] Hint Rewrite @bind_Ok @bind_Raise @mret_Ok : pysimpl.
#[export] Hint Rewrite py_sum_nil py_sum_cons py_sum_app : pysimpl.

Lemma py_sum_join (ls : list (list Z)) : py_sum (mjoin ls) = py_sum (py_sum <$> ls).
Proof. induction ls; csimpl; autorewrite with pysimpl; lia. Qed.

Lemma py_sum_replicate_0 (n : nat) : py_sum (replicate n 0) = 0.
Proof. induction n; simpl; autorewrite with pysimpl; lia. Qed.

#[export] Hint Rewrite py_sum_join py_sum_replicate_0 : pysimpl.

(** Bounds on a sum whose terms are bounded. *)
Lemma py_sum_bounds (lo hi : Z) (l : list Z) :
  Forall (λ x, lo ≤ x ≤ hi) l →
  lo * Z.of_nat (length l) ≤ py_sum l ≤ hi * Z.of_nat (length l).
Proof.
  induction 1; simpl; autorewrite with pysimpl; lia.
Qed.

(** ** Inevitability on a transition relation *)

(** [eventually R P x]: on every path of [R] from [x], a state satisfying
    [P] is reached, and no path gets stuck before it: either [P x], or
    [x] can step and every successor eventually satisfies [P].  Unlike
    "some run reaches a stuck state", this fails when a path stops at a
    state that is stuck but not a [P] state. *)
Inductive eventually {A} (R : relation A) (P : A → Prop) : A → Prop :=
  | ev_now x : P x → eventually R P x
  | ev_step x : red R x → (∀ y, R x y → eventually R P y) → eventually R P x.

(** ** Tactics *)

(** Rewrite with the [pysimpl] database everywhere and simplify. *)
Ltac py_simpl := autorewrite with pysimpl in *; simpl in *.
