(* ===== verification/PyList.v ===== *)
(** * Python list and int primitives used by [src/main.py]

    CPython's semantics of the operations the program applies to lists
    and ints, written out with their error cases: floor division,
    [range], list repetition, slicing and item assignment.  Each comes
    with the lemmas the chunking argument needs (slices of adjacent index
    ranges concatenate; assignment in range writes exactly one slot). *)

From S2P Require Import Prelude.

Open Scope Z_scope.

(** ** Definitions *)

(** [a // b]: floor division; [ZeroDivisionError] when [b = 0].  [Z.div]
    rounds toward minus infinity, as Python does for negative operands. *)
Definition py_floordiv (a b : Z) : PyResult Z :=
  if decide (b = 0) then Raise ZeroDivisionError else Ok (a / b).

Notation "a // b" := (py_floordiv a b) (at level 40, left associativity) : py_scope.

(** [range(n)]: [0, 1, ..., n-1], empty when [n <= 0]. *)
Definition py_range (n : Z) : list Z := Z.of_nat <$> seq 0 (Z.to_nat n).

(** [l * n]: [n] copies of [l] in a row, empty when [n <= 0]. *)
Definition py_list_mul {A} (l : list A) (n : Z) : list A :=
  mjoin (replicate (Z.to_nat n) l).

(** The bound of a slice with step 1 (CPython's [PySlice_AdjustIndices]):
    a negative index counts from the end, then the index is clamped to
    [[0, len]]. *)
Definition py_slice_index (len i : Z) : Z :=
  if decide (i < 0) then Z.max 0 (i + len) else Z.min i len.

(** [l[start:stop]]: never raises; empty when the adjusted [stop] is not
    past the adjusted [start]. *)
Definition py_slice {A} (l : list A) (start stop : Z) : list A :=
  let n := Z.of_nat (length l) in
  let s := py_slice_index n start in
  let e := py_slice_index n stop in
  take (Z.to_nat (e - s)) (drop (Z.to_nat s) l).

Notation "l .[ s : e ]" := (py_slice l s e) (at level 1, s at level 99, e at level 99) : py_scope.

(** [l[i] = x]: a negative index counts from the end; outside
    [[-len, len)] the assignment raises [IndexError] and [l] is unchanged. *)
Definition py_setitem {A} (l : list A) (i : Z) (x : A) : PyResult (list A) :=
  let n := Z.of_nat (length l) in
  let j := if decide (i < 0) then i + n else i in
  if decide (0 ≤ j < n) then Ok (<[Z.to_nat j := x]> l) else Raise IndexError.

Open Scope py_scope.

(** ** Floor division *)

Lemma py_floordiv_ok (a b : Z) : b ≠ 0 → a // b = Ok (a / b).
Proof. intros Hb. unfold py_floordiv. by rewrite decide_False. Qed.

Lemma py_floordiv_zero (a : Z) : a // 0 = Raise ZeroDivisionError.
Proof. reflexivity. Qed.

#[export] Hint Rewrite py_floordiv_zero : pysimpl.

(** ** [range] and repetition *)

Lemma length_py_range (n : Z) : length (py_range n) = Z.to_nat n.
Proof. unfold py_range. by rewrite length_fmap, length_seq. Qed.

Lemma py_range_nonpos (n : Z) : n ≤ 0 → py_range n = [].
Proof. intros Hn. unfold py_range. by replace (Z.to_nat n) with 0%nat by lia. Qed.

Lemma py_range_succ (n : Z) : 0 ≤ n → py_range (n + 1) = py_range n ++ [n].
Proof.
  intros Hn. unfold py_range.
  replace (Z.to_nat (n + 1)) with (S (Z.to_nat n)) by lia.
  rewrite seq_S, fmap_app. simpl. by rewrite Z2Nat.id.
Qed.

Lemma py_list_mul_singleton {A} (x : A) (n : Z) :
  py_list_mul [x] n = replicate (Z.to_nat n) x.
Proof. unfold py_list_mul. induction (Z.to_nat n) as [|k IH]; simpl; [done|]. by rewrite IH. Qed.

(** ** Slicing *)

Lemma py_slice_index_in (len i : Z) : 0 ≤ i ≤ len → py_slice_index len i = i.
Proof. intros Hi. unfold py_slice_index. rewrite decide_False by lia. lia. Qed.

Lemma py_slice_index_bounds (len i : Z) : 0 ≤ len → 0 ≤ py_slice_index len i ≤ len.
Proof. unfold py_slice_index. case_decide; lia. Qed.

(** Inside the list, a slice is [take]/[drop] on the plain indices. *)
Lemma py_slice_in {A} (l : list A) (s e : Z) :
  0 ≤ s → s ≤ e → e ≤ Z.of_nat (length l) →
  l.[s : e] = take (Z.to_nat (e - s)) (drop (Z.to_nat s) l).
Proof.
  intros. unfold py_slice. by rewrite !py_slice_index_in by lia.
Qed.

Lemma length_py_slice {A} (l : list A) (s e : Z) :
  0 ≤ s → s ≤ e → e ≤ Z.of_nat (length l) →
  length (l.[s : e]) = Z.to_nat (e - s).
Proof.
  intros. rewrite py_slice_in by done.
  rewrite length_take, length_drop. lia.
Qed.

(** Slices of two adjacent ranges concatenate to the slice of their union. *)
Lemma py_slice_adjacent {A} (l : list A) (a b c : Z) :
  0 ≤ a → a ≤ b → b ≤ c → c ≤ Z.of_nat (length l) →
  l.[a : b] ++ l.[b : c] = l.[a : c].
Proof.
  intros. rewrite !py_slice_in by lia.
  replace (Z.to_nat b) with (Z.to_nat a + Z.to_nat (b - a))%nat by lia.
  rewrite <- drop_drop, take_take_drop. f_equal. lia.
Qed.

Lemma py_slice_empty {A} (l : list A) (s e : Z) :
  0 ≤ e → e ≤ s → s ≤ Z.of_nat (length l) → l.[s : e] = [].
Proof.
  intros. unfold py_slice. rewrite !py_slice_index_in by lia.
  by replace (Z.to_nat (e - s)) with 0%nat by lia.
Qed.

Lemma py_slice_full {A} (l : list A) : l.[0 : Z.of_nat (length l)] = l.
Proof.
  rewrite py_slice_in by lia. rewrite Z.sub_0_r, Nat2Z.id. simpl.
  by rewrite take_ge.
Qed.

Lemma py_slice_nil {A} (s e : Z) : ([] : list A).[s : e] = [].
Proof. unfold py_slice. by rewrite drop_nil, take_nil. Qed.

#[export] Hint Rewrite @py_slice_nil : pysimpl.

(** ** Item assignment *)

Lemma py_setitem_in {A} (l : list A) (i : Z) (x : A) :
  0 ≤ i < Z.of_nat (length l) →
  py_setitem l i x = Ok (<[Z.to_nat i := x]> l).
Proof.
  intros Hi. unfold py_setitem. repeat case_decide; done || lia.
Qed.

(** The assignment fails exactly outside [[-len, len)]. *)
Lemma py_setitem_raise {A} (l : list A) (i : Z) (x : A) :
  py_setitem l i x = Raise IndexError ↔ ¬ (- Z.of_nat (length l) ≤ i < Z.of_nat (length l)).
Proof.
  unfold py_setitem. split.
  - repeat case_decide; intros Hr; try discriminate; lia.
  - intros Hout. repeat case_decide; done || lia.
Qed.

Lemma length_py_setitem {A} (l l' : list A) (i : Z) (x : A) :
  py_setitem l i x = Ok l' → length l' = length l.
Proof.
  unfold py_setitem. case_decide; intros Hok; simplify_eq; by rewrite length_insert.
Qed.

(** ** Behaviour on concrete values *)

Example py_floordiv_negative : (-7) // 2 = Ok (-4).
Proof. reflexivity. Qed.

Example py_slice_negative : [1; 2; 3; 4].[-3 : -1] = [2; 3].
Proof. reflexivity. Qed.

Example py_slice_clamped : [1; 2; 3].[1 : 10] = [2; 3].
Proof. reflexivity. Qed.

Example py_setitem_negative : py_setitem [0; 0; 0] (-1) 5 = Ok [0; 0; 5].
Proof. reflexivity. Qed.

Example py_setitem_out_of_range : py_setitem [0; 0] 2 5 = Raise IndexError.
Proof. reflexivity. Qed.

Lemma py_slice_adjacent_witness : [1; 2; 3; 4].[0 : 1] ++ [1; 2; 3; 4].[1 : 4] = [1; 2; 3; 4].[0 : 4].
Proof. apply py_slice_adjacent; simpl; lia. Defined.
