(* ===== verification/PyInt.v ===== *)
(** * [int(s)]: CPython's conversion of a line of input to an int

    [main] (lines 74-75) reads each number as [int(input(...))].  For a
    [str] argument and base 10, CPython ([PyLong_FromUnicodeObject],
    [PyLong_FromString], [long_from_string_base]) skips leading
    whitespace, takes an optional sign, then one or more decimal digits
    with single underscores allowed between two digits, skips trailing
    whitespace, and requires the end of the string; anything else raises
    [ValueError].  Since CPython 3.11 a number of more than
    [sys.get_int_max_str_digits()] digits (4300 by default) also raises
    [ValueError].  A Rocq [string] is a sequence of bytes; each is read
    as the Latin-1 code point it encodes, the only non-ASCII whitespace
    among them being U+0085 and U+00A0 (Latin-1 has no other decimal
    digits).

    [py_repr z] is the text [str(z)] of an int (its decimal digits,
    with [-] when negative), used to state the round trip.  The lemmas of
    this file check the model against CPython's documented behaviour;
    the program's own properties that use it are in [Driver]. *)

From S2P Require Import Prelude.
From stdpp Require Import strings.
From Stdlib Require Import Ascii.

Open Scope Z_scope.

(** ** Characters *)

(** [str.isspace()] of the code point: [\t \n \v \f \r], the separators
    U+001C..U+001F, space, NEL and NO-BREAK SPACE. *)
Definition py_isspace (c : ascii) : bool :=
  let n := nat_of_ascii c in
  (Nat.leb 9 n && Nat.leb n 13) || (Nat.leb 28 n && Nat.leb n 32)
  || Nat.eqb n 133 || Nat.eqb n 160.

(** The value of a decimal digit [0]..[9], [None] for any other byte. *)
Definition digit_value (c : ascii) : option Z :=
  let n := nat_of_ascii c in
  if Nat.leb 48 n && Nat.leb n 57 then Some (Z.of_nat n - 48) else None.

(** The default of [sys.get_int_max_str_digits()]. *)
Definition int_max_str_digits : nat := 4300.

(** ** The parser *)

(** Leading whitespace (the [Py_ISSPACE] loop of [PyLong_FromString]). *)
Fixpoint lstrip (cs : list ascii) : list ascii :=
  match cs with
  | c :: cs' => if py_isspace c then lstrip cs' else cs
  | [] => []
  end.

(** The digit loop of [long_from_string_base] after the first digit:
    [acc] is the value read so far and [n] the number of digits; an
    underscore must be followed by a digit.  Returns the value, the
    number of digits and the unread rest, [None] on a misplaced
    underscore. *)
Fixpoint scan_digits (cs : list ascii) (acc : Z) (n : nat) : option (Z * nat * list ascii) :=
  match cs with
  | [] => Some (acc, n, [])
  | c :: cs' =>
      match digit_value c with
      | Some d => scan_digits cs' (10 * acc + d) (S n)
      | None =>
          if Ascii.eqb c "_" then
            match cs' with
            | c2 :: cs'' =>
                match digit_value c2 with
                | Some d => scan_digits cs'' (10 * acc + d) (S n)
                | None => None
                end
            | [] => None
            end
          else Some (acc, n, cs)
      end
  end.

(** The sign: [+] or [-] may precede the digits. *)
Definition take_sign (cs : list ascii) : Z * list ascii :=
  match cs with
  | c :: cs' =>
      if Ascii.eqb c "+" then (1, cs')
      else if Ascii.eqb c "-" then (-1, cs')
      else (1, cs)
  | [] => (1, [])
  end.

(** [int(s)] for a [str] [s]. *)
Definition py_int (s : string) : PyResult Z :=
  let '(sign, cs) := take_sign (lstrip (String.list_ascii_of_string s)) in
  match cs with
  | c :: cs' =>
      match digit_value c with
      | Some d =>
          match scan_digits cs' d 1 with
          | Some (v, n, rest) =>
              if forallb py_isspace rest && Nat.leb n int_max_str_digits
              then Ok (sign * v) else Raise ValueError
          | None => Raise ValueError
          end
      | None => Raise ValueError
      end
  | [] => Raise ValueError
  end.

(** ** The decimal text of an int *)

Definition digit_char (d : Z) : ascii := ascii_of_nat (Z.to_nat d + 48).

(** The decimal digits of [n >= 0], most significant first; [fuel] bounds
    their number. *)
Fixpoint dec_digits (fuel : nat) (n : Z) : list Z :=
  match fuel with
  | O => []
  | S f => (if decide (n < 10) then [] else dec_digits f (n / 10)) ++ [n mod 10]
  end.

(** [str(z)]: the digits of [|z|], enough since [|z| < 2 ^ (log2 |z| + 1)
    <= 10 ^ (log2 |z| + 1)], after a [-] when [z < 0]. *)
Definition py_repr (z : Z) : string :=
  String.string_of_list_ascii
    ((if decide (z < 0) then ["-"%char] else [])
       ++ (digit_char <$> dec_digits (S (Z.to_nat (Z.log2 (Z.abs z)))) (Z.abs z))).

(** Horner's rule: the value of the digits [ds] read after [acc]. *)
Definition horner (acc : Z) (ds : list Z) : Z := fold_left (λ a d, 10 * a + d) ds acc.

Open Scope py_scope.

(** ** Characters *)

Lemma list_ascii_of_string_app (s1 s2 : string) :
  String.list_ascii_of_string (s1 +:+ s2)
  = String.list_ascii_of_string s1 ++ String.list_ascii_of_string s2.
Proof. induction s1 as [|c s1 IH]; simpl; [done|]. by rewrite IH. Qed.

Lemma digit_value_range (c : ascii) (d : Z) : digit_value c = Some d → 0 ≤ d ≤ 9.
Proof.
  unfold digit_value. destruct (Nat.leb_spec 48 (nat_of_ascii c)), (Nat.leb_spec (nat_of_ascii c) 57);
    simpl; intros Hd; simplify_eq; lia.
Qed.

Lemma digit_value_char (d : Z) : 0 ≤ d ≤ 9 → digit_value (digit_char d) = Some d.
Proof.
  intros Hd. assert (d = 0 ∨ d = 1 ∨ d = 2 ∨ d = 3 ∨ d = 4 ∨ d = 5 ∨ d = 6 ∨ d = 7 ∨ d = 8 ∨ d = 9)
    as Hcases by lia.
  repeat destruct Hcases as [->|Hcases]; [reflexivity..|subst; reflexivity].
Qed.

(** A whitespace byte is neither a digit nor an underscore. *)
Lemma space_not_digit (c : ascii) :
  py_isspace c = true → digit_value c = None ∧ Ascii.eqb c "_" = false.
Proof.
  intros Hs. split.
  - unfold py_isspace, digit_value in *.
    destruct (Nat.leb_spec 48 (nat_of_ascii c)), (Nat.leb_spec (nat_of_ascii c) 57); [|done..].
    repeat match goal with
           | H : context [Nat.leb ?a ?b] |- _ => destruct (Nat.leb_spec a b)
           | H : context [Nat.eqb ?a ?b] |- _ => destruct (Nat.eqb_spec a b)
           end; simpl in Hs; (done || lia).
  - destruct (Ascii.eqb_spec c "_") as [->|]; [done|done].
Qed.

Lemma digit_char_not_space (d : Z) : 0 ≤ d ≤ 9 → py_isspace (digit_char d) = false.
Proof.
  intros Hd. destruct (py_isspace (digit_char d)) eqn:Hs; [|done].
  apply space_not_digit in Hs as [Hn _]. by rewrite digit_value_char in Hn.
Qed.

Lemma lstrip_spaces (ws cs : list ascii) :
  Forall (λ c, py_isspace c = true) ws → lstrip (ws ++ cs) = lstrip cs.
Proof. induction 1 as [|c ws Hc _ IH]; simpl; [done|]. by rewrite Hc. Qed.

(** ** The digit loop *)

Lemma horner_app (acc : Z) (ds1 ds2 : list Z) :
  horner acc (ds1 ++ ds2) = horner (horner acc ds1) ds2.
Proof. unfold horner. by rewrite fold_left_app. Qed.

(** The loop reads a run of digit characters in full. *)
Lemma scan_digits_app (ds : list Z) (rest : list ascii) (acc : Z) (n : nat) :
  Forall (λ d, 0 ≤ d ≤ 9) ds →
  scan_digits ((digit_char <$> ds) ++ rest) acc n
  = scan_digits rest (horner acc ds) (n + length ds).
Proof.
  intros Hds. revert acc n. induction Hds as [|d ds Hd _ IH]; intros acc n; simpl.
  - by rewrite Nat.add_0_r.
  - rewrite digit_value_char by done. rewrite IH. by rewrite Nat.add_succ_r.
Qed.

(** It stops at trailing whitespace. *)
Lemma scan_digits_spaces (ws : list ascii) (acc : Z) (n : nat) :
  Forall (λ c, py_isspace c = true) ws → scan_digits ws acc n = Some (acc, n, ws).
Proof.
  intros Hws. destruct Hws as [|c ws Hc _]; [done|]. simpl.
  destruct (space_not_digit c Hc) as [-> ->]. done.
Qed.

(** Every value it returns has at most [m] digits, [m] counting the
    digits read, and [m] only grows. *)
Lemma scan_digits_bound (cs : list ascii) (acc : Z) (n : nat) (v : Z) (m : nat) (rest : list ascii) :
  0 ≤ acc < 10 ^ Z.of_nat n →
  scan_digits cs acc n = Some (v, m, rest) → 0 ≤ v < 10 ^ Z.of_nat m.
Proof.
  revert acc n. induction cs as [cs IH] using (well_founded_induction (Wf_nat.well_founded_ltof _ length)).
  intros acc n Hacc. destruct cs as [|c cs]; simpl; [intros Hs; by simplify_eq|].
  assert (∀ d, 0 ≤ d ≤ 9 → 0 ≤ 10 * acc + d < 10 ^ Z.of_nat (S n)) as Hstep.
  { intros d Hd. rewrite Nat2Z.inj_succ, Z.pow_succ_r by lia. lia. }
  destruct (digit_value c) as [d|] eqn:Hc.
  - apply IH; [unfold Wf_nat.ltof; simpl; lia|]. apply Hstep. by eapply digit_value_range.
  - destruct (Ascii.eqb c "_"); [|intros Hs; by simplify_eq].
    destruct cs as [|c2 cs']; [done|].
    destruct (digit_value c2) as [d|] eqn:Hc2; [|done].
    apply IH; [unfold Wf_nat.ltof; simpl; lia|]. apply Hstep. by eapply digit_value_range.
Qed.

Lemma forallb_spaces (ws : list ascii) :
  forallb py_isspace ws = true → Forall (λ c, py_isspace c = true) ws.
Proof.
  induction ws as [|c ws IH]; simpl; [constructor|].
  intros [Hc Hws]%andb_prop. constructor; auto.
Qed.

(** A digit is not a sign. *)
Lemma take_sign_digit (c : ascii) (cs : list ascii) (d : Z) :
  digit_value c = Some d → take_sign (c :: cs) = (1, c :: cs).
Proof.
  intros Hd. simpl.
  destruct (Ascii.eqb_spec c "+") as [->|]; [done|].
  destruct (Ascii.eqb_spec c "-") as [->|]; done.
Qed.

Lemma take_sign_sign (cs : list ascii) : (take_sign cs).1 = 1 ∨ (take_sign cs).1 = -1.
Proof.
  destruct cs as [|c cs]; simpl; [auto|].
  destruct (Ascii.eqb c "+"); [auto|]. destruct (Ascii.eqb c "-"); auto.
Qed.

(** ** The decimal digits of a number *)

Lemma dec_digits_range (f : nat) (n : Z) : 0 ≤ n → Forall (λ d, 0 ≤ d ≤ 9) (dec_digits f n).
Proof.
  revert n. induction f as [|f IH]; intros n Hn; simpl; [constructor|].
  apply Forall_app. split.
  - case_decide; [constructor|]. apply IH. apply Z.div_pos; lia.
  - constructor; [|constructor]. pose proof (Z.mod_pos_bound n 10). lia.
Qed.

Lemma dec_digits_value (f : nat) (n : Z) :
  0 ≤ n < 10 ^ Z.of_nat f → horner 0 (dec_digits f n) = n.
Proof.
  revert n. induction f as [|f IH]; intros n Hn; simpl.
  - simpl in Hn. unfold horner. simpl. lia.
  - rewrite horner_app. pose proof (Z.div_mod n 10). pose proof (Z.mod_pos_bound n 10).
    case_decide.
    + unfold horner. simpl. rewrite Z.div_small in * by lia. lia.
    + rewrite IH; [unfold horner; simpl; lia|].
      rewrite Nat2Z.inj_succ, Z.pow_succ_r in Hn by lia.
      split; [apply Z.div_pos; lia|]. apply Z.div_lt_upper_bound; lia.
Qed.

(** A number below [10 ^ m] has at most [m] digits (and at least one). *)
Lemma dec_digits_length (f : nat) (n : Z) (m : nat) :
  0 ≤ n < 10 ^ Z.of_nat m → (length (dec_digits f n) ≤ Nat.max 1 m)%nat.
Proof.
  revert n m. induction f as [|f IH]; intros n m Hn; simpl; [lia|].
  rewrite length_app. simpl. case_decide; simpl; [lia|].
  destruct m as [|[|m]]; [simpl in Hn; lia|simpl in Hn; lia|].
  enough (length (dec_digits f (n / 10)) ≤ Nat.max 1 (S m))%nat by lia.
  apply IH. rewrite Nat2Z.inj_succ, Z.pow_succ_r in Hn by lia.
  split; [apply Z.div_pos; lia|]. apply Z.div_lt_upper_bound; lia.
Qed.

(** The fuel of [py_repr] suffices: [n < 10 ^ (log2 n + 1)]. *)
Lemma repr_fuel (n : Z) : 0 ≤ n → n < 10 ^ Z.of_nat (S (Z.to_nat (Z.log2 n))).
Proof.
  intros Hn. rewrite Nat2Z.inj_succ, Z2Nat.id by apply Z.log2_nonneg.
  destruct (decide (n = 0)) as [->|]; [reflexivity|].
  destruct (Z.log2_spec n) as [_ Hlt]; [lia|].
  eapply Z.lt_le_trans; [exact Hlt|]. apply Z.pow_le_mono_l. lia.
Qed.

(** ** Parsing a well-formed literal *)

(** Whitespace, an optional [-], one or more digits, whitespace: [int]
    returns the value of the digits with their sign, unless there are
    more digits than [sys.get_int_max_str_digits()]. *)
Lemma py_int_literal (ws1 ws2 : list ascii) (neg : bool) (ds : list Z) :
  Forall (λ c, py_isspace c = true) ws1 → Forall (λ c, py_isspace c = true) ws2 →
  Forall (λ d, 0 ≤ d ≤ 9) ds → ds ≠ [] →
  py_int (String.string_of_list_ascii
            (ws1 ++ (if neg then ["-"%char] else []) ++ (digit_char <$> ds) ++ ws2))
  = if Nat.leb (length ds) int_max_str_digits
    then Ok ((if neg then -1 else 1) * horner 0 ds) else Raise ValueError.
Proof.
  intros Hws1 Hws2 Hds Hne. unfold py_int.
  rewrite String.list_ascii_of_string_of_list_ascii, lstrip_spaces by done.
  destruct Hds as [|d ds Hd Hds]; [done|].
  assert (take_sign (lstrip ((if neg then ["-"%char] else []) ++ (digit_char <$> d :: ds) ++ ws2))
          = (if neg then -1 else 1, (digit_char <$> d :: ds) ++ ws2)) as ->.
  { destruct neg; [reflexivity|]. simpl. rewrite digit_char_not_space by done.
    eapply take_sign_digit. by apply digit_value_char. }
  simpl. rewrite digit_value_char, scan_digits_app, scan_digits_spaces by done.
  replace (forallb py_isspace ws2) with true.
  - simpl. unfold horner. simpl. by replace (10 * 0 + d) with d by lia.
  - symmetry. induction Hws2 as [|c ws Hc _ IH]; simpl; [done|]. by rewrite Hc.
Qed.

(** A literal of more digits than [sys.get_int_max_str_digits()] raises
    [ValueError], whatever its value. *)
Lemma py_int_too_long (ws1 ws2 : list ascii) (neg : bool) (ds : list Z) :
  Forall (λ c, py_isspace c = true) ws1 → Forall (λ c, py_isspace c = true) ws2 →
  Forall (λ d, 0 ≤ d ≤ 9) ds → (int_max_str_digits < length ds)%nat →
  py_int (String.string_of_list_ascii
            (ws1 ++ (if neg then ["-"%char] else []) ++ (digit_char <$> ds) ++ ws2))
  = Raise ValueError.
Proof.
  intros Hws1 Hws2 Hds Hlen. rewrite py_int_literal by (done || (intros ->; simpl in Hlen; lia)).
  by rewrite (proj2 (Nat.leb_gt _ _) Hlen).
Qed.

(** ** Properties of [int] *)

(** Round trip: [int] applied to the decimal text [str(z)] of an int,
    with any whitespace around it, gives back [z], for every [z] of at
    most [sys.get_int_max_str_digits()] digits. *)
Theorem py_int_repr (ws1 ws2 : string) (z : Z) :
  forallb py_isspace (String.list_ascii_of_string ws1) = true →
  forallb py_isspace (String.list_ascii_of_string ws2) = true →
  Z.abs z < 10 ^ Z.of_nat int_max_str_digits →
  py_int (ws1 +:+ py_repr z +:+ ws2) = Ok z.
Proof.
  intros H1 H2 Hz. rewrite <- (String.string_of_list_ascii_of_string (ws1 +:+ _)).
  rewrite !list_ascii_of_string_app. unfold py_repr.
  rewrite String.list_ascii_of_string_of_list_ascii, <- app_assoc.
  set (f := S (Z.to_nat (Z.log2 (Z.abs z)))).
  pose proof (repr_fuel (Z.abs z) (Z.abs_nonneg z)) as Hf.
  assert (dec_digits f (Z.abs z) ≠ []) as Hne by (simpl; intros [_ ?]%app_eq_nil; done).
  pose proof (dec_digits_length f (Z.abs z) int_max_str_digits (conj (Z.abs_nonneg z) Hz)) as Hlen.
  assert (length (dec_digits f (Z.abs z)) ≤ int_max_str_digits)%nat as Hlen'
    by (unfold int_max_str_digits in *; lia).
  destruct (decide (z < 0));
    [rewrite (py_int_literal _ _ true)|rewrite (py_int_literal _ _ false)];
    auto using forallb_spaces, dec_digits_range, Z.abs_nonneg;
    rewrite (proj2 (Nat.leb_le _ _) Hlen'), dec_digits_value by (split; [lia|done]); f_equal; lia.
Qed.

(** Any int that [int] returns has at most
    [sys.get_int_max_str_digits()] digits; a longer literal raises
    [ValueError]. *)
Theorem py_int_bounds (s : string) (z : Z) :
  py_int s = Ok z → Z.abs z < 10 ^ Z.of_nat int_max_str_digits.
Proof.
  unfold py_int. pose proof (take_sign_sign (lstrip (String.list_ascii_of_string s))) as Hsign.
  destruct (take_sign _) as [sign cs]. simpl in Hsign.
  destruct cs as [|c cs]; [done|]. destruct (digit_value c) as [d|] eqn:Hd; [|done].
  destruct (scan_digits cs d 1) as [[[v m] rest]|] eqn:Hs; [|done].
  destruct (forallb py_isspace rest && Nat.leb m int_max_str_digits) eqn:Hok; [|done].
  intros Hz. injection Hz as <-. apply andb_prop in Hok as [_ Hm%Nat.leb_le].
  apply scan_digits_bound in Hs; [|pose proof (digit_value_range c d Hd); simpl; lia].
  assert (10 ^ Z.of_nat m ≤ 10 ^ Z.of_nat int_max_str_digits) by (apply Z.pow_le_mono_r; lia).
  destruct Hsign as [->| ->]; lia.
Qed.

(** [int] on the strings CPython documents: underscores only between
    digits, leading zeros and surrounding whitespace accepted, no space
    after the sign, no base prefix, no fraction, no empty literal. *)
Example py_int_syntax :
  py_int "1_000" = Ok 1000 ∧ py_int " -42  " = Ok (-42) ∧ py_int "+7" = Ok 7
  ∧ py_int "007" = Ok 7 ∧ py_int "1__0" = Raise ValueError ∧ py_int "_1" = Raise ValueError
  ∧ py_int "1_" = Raise ValueError ∧ py_int "- 5" = Raise ValueError
  ∧ py_int "0x10" = Raise ValueError ∧ py_int "3.0" = Raise ValueError
  ∧ py_int "" = Raise ValueError ∧ py_int "  " = Raise ValueError.
Proof. vm_compute. repeat split. Qed.

