(* ===== verification/Partition.v ===== *)
(** * Partitioner: the chunk boundaries of [_sum_vector_with_threads]

    Lines 25-28 of [src/main.py] compute [chunk_size = self.size //
    self.num_threads] and, for each [i in range(self.num_threads)], the
    arguments [(start, end, i)] of thread [i]: [start = i * chunk_size],
    [end = (i + 1) * chunk_size] except for the last thread, whose [end]
    is [self.size].  This file models that computation ([chunk_args],
    [thread_args], [partition]) and proves that for [num_threads >= 1] and
    [size >= 0] the chunks tile [[0, size)]: one chunk per thread, in
    order, each starting where the previous ended, the last one taking
    the remainder of the division. *)

From S2P Require Import Prelude PyList.

Open Scope Z_scope.
Open Scope py_scope.

(** ** Definitions *)

(** The argument tuple [args=(start, end, i)] of one thread (line 29). *)
Record targs := mk_targs { t_start : Z; t_end : Z; t_index : Z }.

#[export] Instance targs_eq_dec : EqDecision targs.
Proof. solve_decision. Defined.

(** Lines 27-28 for one iteration [i] of the loop. *)
Definition chunk_args (size num_threads chunk_size i : Z) : targs :=
  let start := i * chunk_size in
  let end_ := if decide (i ≠ num_threads - 1) then (i + 1) * chunk_size else size in
  mk_targs start end_ i.

(** The arguments of all threads, in the order the loop of line 26
    creates them. *)
Definition thread_args (size num_threads chunk_size : Z) : list targs :=
  chunk_args size num_threads chunk_size <$> py_range num_threads.

(** Line 25 followed by the loop: raises [ZeroDivisionError] when
    [num_threads = 0]. *)
Definition partition (size num_threads : Z) : PyResult (list targs) :=
  chunk_size ← size // num_threads;
  mret (thread_args size num_threads chunk_size).

(** [tiles a c ts]: the chunks [ts] cover [[a, c)] in order, each
    nonempty-or-empty chunk starting where the previous one ended. *)
Fixpoint tiles (a c : Z) (ts : list targs) : Prop :=
  match ts with
  | [] => a = c
  | t :: ts' => t_start t = a ∧ a ≤ t_end t ∧ tiles (t_end t) c ts'
  end.

(** The number of chunks that contain index [j]. *)
Definition covering (j : Z) (ts : list targs) : nat :=
  length (filter (λ t, t_start t ≤ j < t_end t) ts).

(** ** Tiling lemmas *)

Lemma tiles_app (a b c : Z) (ts1 ts2 : list targs) :
  tiles a b ts1 → tiles b c ts2 → tiles a c (ts1 ++ ts2).
Proof.
  revert a. induction ts1 as [|t ts1 IH]; simpl; intros a H1 H2; [by subst|].
  destruct H1 as (-> & ? & ?). eauto.
Qed.

Lemma tiles_le (a c : Z) (ts : list targs) : tiles a c ts → a ≤ c.
Proof.
  revert a. induction ts as [|t ts IH]; simpl; intros a H; [lia|].
  destruct H as (<- & ? & ?%IH). lia.
Qed.

(** Every chunk of a tiling of [[a, c)] lies inside it. *)
Lemma tiles_bounds (a c : Z) (ts : list targs) (t : targs) :
  tiles a c ts → t ∈ ts → a ≤ t_start t ∧ t_start t ≤ t_end t ∧ t_end t ≤ c.
Proof.
  revert a. induction ts as [|t' ts IH]; simpl; intros a H Hin;
    [by apply not_elem_of_nil in Hin|].
  destruct H as (<- & ? & Ht). pose proof (tiles_le _ _ _ Ht).
  apply elem_of_cons in Hin as [->|Hin]; [lia|].
  specialize (IH _ Ht Hin). lia.
Qed.

#[export] Hint Resolve tiles_le tiles_bounds : pyauto.

Lemma covering_outside (a c j : Z) (ts : list targs) :
  tiles a c ts → (j < a ∨ c ≤ j) → covering j ts = 0%nat.
Proof.
  revert a. induction ts as [|t ts IH]; simpl; intros a Ht Hj; [done|].
  destruct Ht as (<- & ? & Ht). pose proof (tiles_le _ _ _ Ht).
  unfold covering. rewrite filter_cons. case_decide; [lia|].
  apply (IH _ Ht). lia.
Qed.

(** A tiling has no gap and no overlap: every index of [[a, c)] lies in
    exactly one chunk. *)
Lemma tiles_covering (a c j : Z) (ts : list targs) :
  tiles a c ts → a ≤ j < c → covering j ts = 1%nat.
Proof.
  revert a. induction ts as [|t ts IH]; simpl; intros a Ht Hj; [lia|].
  destruct Ht as (<- & ? & Ht). unfold covering. rewrite filter_cons.
  case_decide; simpl.
  - f_equal. apply (covering_outside _ _ _ _ Ht). lia.
  - apply (IH _ Ht). lia.
Qed.

(** The slices of a tiling of [[a, c)] concatenate to the slice
    [v[a:c]]. *)
Lemma tiles_slices {A} (v : list A) (a c : Z) (ts : list targs) :
  tiles a c ts → 0 ≤ a → c ≤ Z.of_nat (length v) →
  mjoin ((λ t, v.[t_start t : t_end t]) <$> ts) = v.[a : c].
Proof.
  revert a. induction ts as [|t ts IH]; csimpl; intros a Ht Ha Hc.
  - subst. symmetry. apply py_slice_empty; lia.
  - destruct Ht as (<- & ? & Ht). pose proof (tiles_le _ _ _ Ht).
    rewrite (IH _ Ht) by lia. apply py_slice_adjacent; lia.
Qed.

(** ** The chunks computed by the loop *)

Lemma length_thread_args (size num_threads chunk_size : Z) :
  length (thread_args size num_threads chunk_size) = Z.to_nat num_threads.
Proof. unfold thread_args. by rewrite length_fmap, length_py_range. Qed.

(** Thread [i] (the [i]-th created) receives the arguments of iteration [i]. *)
Lemma lookup_thread_args (size num_threads chunk_size : Z) (n : nat) :
  (n < Z.to_nat num_threads)%nat →
  thread_args size num_threads chunk_size !! n
  = Some (chunk_args size num_threads chunk_size (Z.of_nat n)).
Proof.
  intros Hn. unfold thread_args, py_range.
  rewrite !list_lookup_fmap, lookup_seq_lt by done. reflexivity.
Qed.

(** The chunks of the threads that are not last have the uniform shape
    [[i * b, (i + 1) * b)]; they tile [[0, m * b)]. *)
Lemma tiles_uniform (b : Z) (n : nat) :
  0 ≤ b →
  tiles 0 (Z.of_nat n * b) ((λ i, mk_targs (i * b) ((i + 1) * b) i) <$> py_range (Z.of_nat n)).
Proof.
  intros Hb. induction n as [|n IH]; [done|].
  rewrite Nat2Z.inj_succ, <- Z.add_1_r, py_range_succ, fmap_app by lia.
  eapply tiles_app; [apply IH|]. simpl. lia.
Qed.

Section Chunks.
Variables (size num_threads : Z).
Hypothesis Hthreads : 1 ≤ num_threads.

Let b := size / num_threads.

(** The loop splits into the [num_threads - 1] uniform chunks and the
    last chunk, which ends at [size]. *)
Lemma thread_args_split :
  thread_args size num_threads b
  = ((λ i, mk_targs (i * b) ((i + 1) * b) i) <$> py_range (num_threads - 1))
    ++ [mk_targs ((num_threads - 1) * b) size (num_threads - 1)].
Proof.
  unfold thread_args.
  replace num_threads with ((num_threads - 1) + 1) at 2 by lia.
  rewrite py_range_succ, fmap_app by lia. f_equal.
  - apply list_fmap_ext. intros k i Hi.
    apply list_elem_of_lookup_2 in Hi. unfold py_range in Hi.
    apply list_elem_of_fmap in Hi as (m & -> & Hm%elem_of_seq).
    unfold chunk_args. rewrite decide_True by lia. reflexivity.
  - simpl. unfold chunk_args. rewrite decide_False by lia. reflexivity.
Qed.

Hypothesis Hsize : 0 ≤ size.

(** The chunks tile [[0, size)]. *)
Lemma thread_args_tiles : tiles 0 size (thread_args size num_threads b).
Proof.
  rewrite thread_args_split.
  assert (0 ≤ b) by (apply Z.div_pos; lia).
  assert ((num_threads - 1) * b ≤ size).
  { pose proof (Z.mul_div_le size num_threads). subst b. nia. }
  eapply tiles_app.
  - replace (num_threads - 1) with (Z.of_nat (Z.to_nat (num_threads - 1))) by lia.
    apply tiles_uniform; lia.
  - simpl. rewrite Z2Nat.id by lia. lia.
Qed.

Lemma thread_args_in_bounds (t : targs) :
  t ∈ thread_args size num_threads b → 0 ≤ t_start t ∧ t_start t ≤ t_end t ∧ t_end t ≤ size.
Proof. intros Ht. eauto using thread_args_tiles with pyauto. Qed.

(** With [size] the length of the vector, the chunk slices concatenate
    to the vector. *)
Lemma thread_args_slices {A} (v : list A) :
  size = Z.of_nat (length v) →
  mjoin ((λ t, v.[t_start t : t_end t]) <$> thread_args size num_threads b) = v.
Proof.
  intros Hv. rewrite (tiles_slices _ 0 size); [|apply thread_args_tiles|lia|lia].
  rewrite Hv. apply py_slice_full.
Qed.
End Chunks.


(** ** Properties of the partitioner *)

Lemma partition_ok (size num_threads : Z) :
  num_threads ≠ 0 →
  partition size num_threads = Ok (thread_args size num_threads (size / num_threads)).
Proof. intros HK. unfold partition. by rewrite py_floordiv_ok. Qed.

(** C4: for [num_threads >= 1] and [size >= 0], the loop returns exactly
    [num_threads] chunks that tile [[0, size)]: the first starts at 0,
    the last ends at [size], and each ends where the next starts. *)
Theorem partition_tiles (size num_threads : Z) :
  1 ≤ num_threads → 0 ≤ size →
  ∃ ts, partition size num_threads = Ok ts
        ∧ length ts = Z.to_nat num_threads ∧ tiles 0 size ts.
Proof.
  intros HK HN. exists (thread_args size num_threads (size / num_threads)).
  rewrite partition_ok by lia.
  split_and!; [done|apply length_thread_args|by apply thread_args_tiles].
Qed.

(** C5: No gap and no overlap: every index of the vector lies in exactly one
    chunk, and no index outside it lies in any. *)
Theorem partition_exact_cover (size num_threads : Z) (ts : list targs) (j : Z) :
  1 ≤ num_threads → 0 ≤ size → partition size num_threads = Ok ts →
  covering j ts = if decide (0 ≤ j < size) then 1%nat else 0%nat.
Proof.
  intros HK HN Hp. rewrite partition_ok in Hp by lia. simplify_eq. pose proof (thread_args_tiles size num_threads HK HN).
  case_decide; [by eapply tiles_covering|].
  eapply covering_outside; [done|lia].
Qed.

(** C14: Chunk [i] belongs to thread [i]; every chunk but the last has
    [size // num_threads] elements and the last one also takes the
    remainder [size mod num_threads]. *)
Theorem partition_chunk_length (size num_threads : Z) (ts : list targs) (n : nat) (t : targs) :
  1 ≤ num_threads → partition size num_threads = Ok ts → ts !! n = Some t →
  t_index t = Z.of_nat n
  ∧ t_end t - t_start t
    = if decide (Z.of_nat n < num_threads - 1) then size / num_threads
      else size / num_threads + size mod num_threads.
Proof.
  intros HK Hp Hn. rewrite partition_ok in Hp by lia. simplify_eq. pose proof (lookup_lt_Some _ _ _ Hn) as Hlt.
  rewrite length_thread_args in Hlt.
  rewrite lookup_thread_args in Hn by done. simplify_eq.
  unfold chunk_args; simpl. split; [done|].
  pose proof (Z.div_mod size num_threads ltac:(lia)).
  repeat case_decide; nia.
Qed.

(** C6: The slices [vector[start:end]] of the chunks, concatenated in thread
    order, give back the vector. *)
Theorem partition_slices (v : list Z) (num_threads : Z) (ts : list targs) :
  1 ≤ num_threads → partition (Z.of_nat (length v)) num_threads = Ok ts →
  mjoin ((λ t, v.[t_start t : t_end t]) <$> ts) = v.
Proof.
  intros HK Hp. rewrite partition_ok in Hp by lia. simplify_eq.
  by apply thread_args_slices; lia.
Qed.

(** C21: A negative [num_threads] is not rejected: [range] is empty and no
    chunk is produced, so nothing covers the vector. *)
Theorem partition_negative_threads (size num_threads : Z) :
  num_threads < 0 → partition size num_threads = Ok [].
Proof.
  intros HK. rewrite partition_ok by lia.
  unfold thread_args. by rewrite py_range_nonpos by lia.
Qed.

(** The spec's first scenario: 8 elements, 4 threads. *)
Example partition_8_4 :
  partition 8 4 = Ok [mk_targs 0 2 0; mk_targs 2 4 1; mk_targs 4 6 2; mk_targs 6 8 3].
Proof. reflexivity. Qed.

(** The spec's second scenario: more threads than elements; the last chunk
    takes the only element. *)
Example partition_1_3 :
  partition 1 3 = Ok [mk_targs 0 0 0; mk_targs 0 0 1; mk_targs 0 1 2].
Proof. reflexivity. Qed.

(** ** Witnesses on concrete inputs *)

Lemma partition_tiles_witness :
  ∃ ts, partition 8 4 = Ok ts ∧ length ts = Z.to_nat 4 ∧ tiles 0 8 ts.
Proof. apply (partition_tiles 8 4); lia. Defined.

Lemma partition_exact_cover_witness :
  covering 5 (thread_args 8 4 2) = if decide (0 ≤ 5 < 8) then 1%nat else 0%nat.
Proof. apply (partition_exact_cover 8 4); [lia|lia|reflexivity]. Defined.

Lemma partition_chunk_length_witness :
  t_index (mk_targs 6 10 3) = Z.of_nat 3
  ∧ 10 - 6 = if decide (Z.of_nat 3 < 4 - 1) then 10 / 4 else 10 / 4 + 10 mod 4.
Proof.
  apply (partition_chunk_length 10 4 (thread_args 10 4 2) 3 (mk_targs 6 10 3));
    [lia|reflexivity|reflexivity].
Defined.

Lemma partition_slices_witness :
  mjoin ((λ t, [1; 2; 3; 4; 5].[t_start t : t_end t]) <$> thread_args 5 2 2) = [1; 2; 3; 4; 5].
Proof. apply (partition_slices [1; 2; 3; 4; 5] 2); [lia|reflexivity]. Defined.

Lemma partition_negative_threads_witness : partition 5 (-2) = Ok [].
Proof. apply (partition_negative_threads 5 (-2)). lia. Defined.
