(* ===== verification/VectorSum.v ===== *)
(** * Parallel reducer, functional reference: the class [VectorSum]

    The object of class [VectorSum] ([src/main.py], lines 6-36) as a
    record, its sequential sum [_sum_vector], the thread body
    [partial_sum] (lines 22-23), and [_sum_vector_with_threads] (lines
    18-36) with the threads run to completion one after the other, in the
    order they are started.  [Threads] shows that every interleaving of
    the real threads ends with the same result, so this is the reference
    the concurrent model refines.

    A thread whose body raises does not propagate the exception: Python's
    [threading] reports it and ends the thread, and [join] returns
    normally.  [run_thread] models exactly that: the slot is left as it
    was. *)

From S2P Require Import Prelude PyList Partition.

Open Scope Z_scope.
Open Scope py_scope.

(** ** Definitions *)

(** The attributes of a [VectorSum] object (lines 7-10). *)
Record VectorSum := mkVectorSum {
  size : Z;
  num_threads : Z;
  vector : list Z
}.

(** [_sum_vector] (lines 15-16): [sum(self.vector)]. *)
Definition _sum_vector (self : VectorSum) : Z := py_sum (vector self).

(** The value thread [a] computes: [sum(self.vector[start:end])]. *)
Definition slice_sum (vec : list Z) (a : targs) : Z :=
  py_sum (vec.[t_start a : t_end a]).

(** The nested function [partial_sum(start, end, index)] (lines 22-23):
    [total_sum[index] = sum(self.vector[start:end])]. *)
Definition partial_sum (vec : list Z) (total_sum : list Z) (a : targs) : PyResult (list Z) :=
  py_setitem total_sum (t_index a) (slice_sum vec a).

(** A thread running [partial_sum] to its end: an exception ends the
    thread and leaves [total_sum] as it was. *)
Definition run_thread (vec : list Z) (total_sum : list Z) (a : targs) : list Z :=
  match partial_sum vec total_sum a with
  | Ok total_sum' => total_sum'
  | Raise _ => total_sum
  end.

(** [_sum_vector_with_threads] (lines 18-36) with the threads run one
    after the other in the order they are started: [total_sum = [0] *
    self.num_threads], [chunk_size = self.size // self.num_threads] (may
    raise), one thread per chunk, [sum(total_sum)] after the joins. *)
Definition _sum_vector_with_threads (self : VectorSum) : PyResult Z :=
  let total_sum := py_list_mul [0] (num_threads self) in
  chunk_size ← size self // num_threads self;
  let args := thread_args (size self) (num_threads self) chunk_size in
  mret (py_sum (foldl (run_thread (vector self)) total_sum args)).

(** The relation between [size] and [vector] that the constructor
    establishes (lines 8-10): [range(size)] makes [size] elements when
    [size >= 0] and none otherwise. *)
Definition vs_wf (self : VectorSum) : Prop :=
  size self = Z.of_nat (length (vector self)) ∨ (size self < 0 ∧ vector self = []).

#[export] Instance vs_wf_dec (self : VectorSum) : Decision (vs_wf self).
Proof. unfold vs_wf. apply _. Defined.

(** The type of an object as the program builds it: [vs_wf], and every
    element an int of [[1, 100]], the range [random.randint(1, 100)]
    draws from (line 13). *)
Definition vs_typed (self : VectorSum) : Prop :=
  vs_wf self ∧ Forall (λ x, 1 ≤ x ≤ 100) (vector self).

#[export] Instance vs_typed_dec (self : VectorSum) : Decision (vs_typed self).
Proof. unfold vs_typed. apply _. Defined.

(** ** Lemmas *)

(** A thread whose index is a slot of [total_sum] stores its sum there. *)
Lemma partial_sum_in (vec total_sum : list Z) (a : targs) :
  0 ≤ t_index a < Z.of_nat (length total_sum) →
  partial_sum vec total_sum a = Ok (<[Z.to_nat (t_index a) := slice_sum vec a]> total_sum).
Proof. apply py_setitem_in. Qed.

(** Running threads whose indices are the next free slots, in order,
    fills those slots with their sums. *)
Lemma foldl_run_thread (vec : list Z) (args : list targs) (done rest : list Z) :
  (∀ n a, args !! n = Some a → t_index a = Z.of_nat (length done + n)) →
  length rest = length args →
  foldl (run_thread vec) (done ++ rest) args = done ++ (slice_sum vec <$> args).
Proof.
  revert done rest. induction args as [|a args IH]; intros done rest Hidx Hlen.
  - destruct rest; [|done]. by rewrite !app_nil_r.
  - destruct rest as [|r rest]; [done|]. simpl in *.
    assert (t_index a = Z.of_nat (length done)) as Ha.
    { rewrite (Hidx 0%nat a) by done. f_equal. lia. }
    unfold run_thread at 2. rewrite partial_sum_in by (rewrite length_app; simpl; lia).
    rewrite Ha, Nat2Z.id.
    replace (length done) with (length done + 0)%nat by lia.
    rewrite insert_app_r. simpl.
    rewrite cons_middle, app_assoc, IH; [by rewrite <- app_assoc| |lia].
    intros n b Hb. rewrite length_app. simpl.
    rewrite (Hidx (S n) b Hb). f_equal. lia.
Qed.

(** The index of the [n]-th thread is [n]. *)
Lemma thread_args_index (size num_threads chunk_size : Z) (n : nat) (a : targs) :
  thread_args size num_threads chunk_size !! n = Some a → t_index a = Z.of_nat n.
Proof.
  intros Hn. pose proof (lookup_lt_Some _ _ _ Hn) as Hlt.
  rewrite length_thread_args in Hlt.
  rewrite lookup_thread_args in Hn by done. by simplify_eq.
Qed.

(** The partial sums of the chunks add up to the sum of the vector, for
    every object the constructor can build. *)
Lemma sum_partials (self : VectorSum) :
  vs_wf self → 1 ≤ num_threads self →
  py_sum (slice_sum (vector self) <$> thread_args (size self) (num_threads self)
            (size self / num_threads self))
  = _sum_vector self.
Proof.
  intros [Hsz|[Hsz Hv]] HK; unfold _sum_vector, slice_sum.
  - transitivity (py_sum (mjoin ((λ t, (vector self).[t_start t : t_end t]) <$>
      thread_args (size self) (num_threads self) (size self / num_threads self)))).
    + by rewrite py_sum_join, <- list_fmap_compose.
    + rewrite (thread_args_slices (size self) (num_threads self)); [done|lia|lia|done].
  - rewrite Hv. induction (thread_args _ _ _); csimpl; py_simpl; lia.
Qed.

(** Run in start order, the threads leave in [total_sum] the partial sum
    of every chunk, slot [i] holding the sum of chunk [i]. *)
Lemma run_all_threads (vec : list Z) (size num_threads chunk_size : Z) :
  foldl (run_thread vec) (py_list_mul [0] num_threads) (thread_args size num_threads chunk_size)
  = slice_sum vec <$> thread_args size num_threads chunk_size.
Proof.
  rewrite py_list_mul_singleton, <- (app_nil_l (replicate _ 0)), foldl_run_thread.
  - done.
  - intros n a Ha. by apply thread_args_index in Ha.
  - by rewrite length_replicate, length_thread_args.
Qed.

(** ** Properties of the reducer *)

(** C1: the equivalence invariant.  For every object the constructor can
    build and every [num_threads >= 1], the threaded sum returns the
    sequential sum. *)
Theorem _sum_vector_with_threads_correct (self : VectorSum) :
  vs_wf self → 1 ≤ num_threads self →
  _sum_vector_with_threads self = Ok (_sum_vector self).
Proof.
  intros Hwf HK. unfold _sum_vector_with_threads. rewrite py_floordiv_ok by lia.
  cbv beta zeta. rewrite bind_Ok, run_all_threads. f_equal. by apply sum_partials.
Qed.

(** Unfolding [_sum_vector_with_threads] once the division succeeds. *)
Lemma _sum_vector_with_threads_unfold (self : VectorSum) :
  num_threads self ≠ 0 →
  _sum_vector_with_threads self
  = Ok (py_sum (slice_sum (vector self) <$>
          thread_args (size self) (num_threads self) (size self / num_threads self))).
Proof.
  intros HK. unfold _sum_vector_with_threads. rewrite py_floordiv_ok by done.
  cbv beta zeta. by rewrite bind_Ok, run_all_threads.
Qed.

(** C13: No worker fails: for a [total_sum] of [num_threads] slots, the
    assignment [total_sum[index] = ...] of every thread the loop creates
    lands in a slot and writes that slot only. *)
Theorem partial_sum_never_fails (vec total_sum : list Z) (size num_threads chunk_size : Z) (a : targs) :
  length total_sum = Z.to_nat num_threads →
  a ∈ thread_args size num_threads chunk_size →
  partial_sum vec total_sum a = Ok (<[Z.to_nat (t_index a) := slice_sum vec a]> total_sum).
Proof.
  intros Hlen Ha. apply list_elem_of_lookup in Ha as [n Hn].
  pose proof (lookup_lt_Some _ _ _ Hn) as Hlt. rewrite length_thread_args in Hlt.
  apply thread_args_index in Hn. apply partial_sum_in. lia.
Qed.

(** C19: [num_threads = 0] raises [ZeroDivisionError] out of line 25. *)
Theorem _sum_vector_with_threads_zero (self : VectorSum) :
  num_threads self = 0 → _sum_vector_with_threads self = Raise ZeroDivisionError.
Proof.
  intros HK. unfold _sum_vector_with_threads. by rewrite HK, py_floordiv_zero.
Qed.

(** C20: A negative [num_threads] is accepted and the method returns 0 without
    summing anything, whatever the vector holds. *)
Theorem _sum_vector_with_threads_negative (self : VectorSum) :
  num_threads self < 0 → _sum_vector_with_threads self = Ok 0.
Proof.
  intros HK. rewrite _sum_vector_with_threads_unfold by lia.
  unfold thread_args. by rewrite py_range_nonpos by lia.
Qed.

(** The spec's first scenario: partial sums [3; 7; 11; 15], total 36. *)
Example scenario_8_4 :
  foldl (run_thread [1; 2; 3; 4; 5; 6; 7; 8]) (py_list_mul [0] 4) (thread_args 8 4 2)
    = [3; 7; 11; 15]
  ∧ _sum_vector_with_threads (mkVectorSum 8 4 [1; 2; 3; 4; 5; 6; 7; 8]) = Ok 36.
Proof. split; reflexivity. Qed.

(** The spec's second and third scenarios: [[5]] with 3 threads, [[]]
    with 5 threads. *)
Example scenario_small :
  _sum_vector_with_threads (mkVectorSum 1 3 [5]) = Ok 5
  ∧ _sum_vector_with_threads (mkVectorSum 0 5 []) = Ok 0.
Proof. split; reflexivity. Qed.

(** ** Witnesses on concrete inputs *)

Lemma _sum_vector_with_threads_correct_witness :
  _sum_vector_with_threads (mkVectorSum 8 4 [1; 2; 3; 4; 5; 6; 7; 8])
  = Ok (_sum_vector (mkVectorSum 8 4 [1; 2; 3; 4; 5; 6; 7; 8])).
Proof. apply _sum_vector_with_threads_correct; [left; reflexivity|simpl; lia]. Defined.

Lemma partial_sum_never_fails_witness :
  partial_sum [1; 2; 3] [0; 0] (mk_targs 1 3 1)
  = Ok (<[Z.to_nat (t_index (mk_targs 1 3 1)) := slice_sum [1; 2; 3] (mk_targs 1 3 1)]> [0; 0]).
Proof.
  apply (partial_sum_never_fails _ _ 3 2 1); [reflexivity|].
  apply list_elem_of_In. simpl. auto.
Defined.

Lemma _sum_vector_with_threads_zero_witness :
  _sum_vector_with_threads (mkVectorSum 3 0 [1; 2; 3]) = Raise ZeroDivisionError.
Proof. apply _sum_vector_with_threads_zero. reflexivity. Defined.

Lemma _sum_vector_with_threads_negative_witness :
  _sum_vector_with_threads (mkVectorSum 3 (-2) [1; 2; 3]) = Ok 0.
Proof. apply _sum_vector_with_threads_negative. simpl. lia. Defined.
