(* ===== verification/Threads.v ===== *)
(** * Parallel reducer, concurrent model: the threads of
    [_sum_vector_with_threads] as an interleaving semantics

    A configuration holds the main thread's position in the method
    ([mstate]), the list [threads] with each thread's arguments and
    status, and the shared list [total_sum].  One [step] is one atomic
    action of one thread:
    - the main thread runs one iteration of the loop of lines 26-31
      (create thread [i] with its chunk and start it), leaves the loop,
      joins the next thread of [threads] (lines 33-34: only once that
      thread has terminated), or returns [sum(total_sum)] (line 36);
    - a started thread evaluates [sum(self.vector[start:end])], then
      stores it with [total_sum[index] = ...] (line 23); a store that
      raises ends the thread without touching [total_sum], as Python's
      [threading] does.
    Any thread may move at any time, so the relation contains every
    interleaving the scheduler can produce.  The vector is never written,
    so a thread reads it in one step. *)

From S2P Require Import Prelude PyList Partition VectorSum.

Open Scope Z_scope.
Open Scope py_scope.

(** ** Configurations *)

(** The status of a thread object of [threads]. *)
Inductive tstatus :=
  | TRunning            (** started; its target has not yet evaluated the sum *)
  | TComputed (v : Z)   (** the sum [v] is evaluated; the store is pending *)
  | TDone               (** its target returned *)
  | TFailed (e : PyExc) (** its target raised [e]; the thread ended *).

(** Where the main thread is in [_sum_vector_with_threads]. *)
Inductive mstate :=
  | MSpawn (chunk_size : Z) (rest : list Z) (** in the loop of line 26; [rest] are the
                                               iterations left of [range(num_threads)] *)
  | MJoin (n : nat)                        (** in the loop of line 33, at [threads[n]] *)
  | MReturn (r : Z)                        (** returned [r] (line 36) *)
  | MRaise (e : PyExc)                     (** raised [e] *).

Record config := mkConfig {
  c_main : mstate;
  c_threads : list (targs * tstatus);
  c_total : list Z
}.

(** A thread that [join] no longer waits for. *)
Definition terminated (st : tstatus) : bool :=
  match st with TDone | TFailed _ => true | _ => false end.

(** The arguments the loop gives to the threads of [self]. *)
Definition args_of (self : VectorSum) : list targs :=
  thread_args (size self) (num_threads self) (size self / num_threads self).

Section Semantics.
Variable self : VectorSum.

(** Lines 19-25 up to the loop: [total_sum = [0] * self.num_threads],
    [threads = []], [chunk_size = self.size // self.num_threads]. *)
Definition init_config : config :=
  let total_sum := py_list_mul [0] (num_threads self) in
  match size self // num_threads self with
  | Ok chunk_size => mkConfig (MSpawn chunk_size (py_range (num_threads self))) [] total_sum
  | Raise e => mkConfig (MRaise e) [] total_sum
  end.

Inductive step : config → config → Prop :=
  (** Lines 27-31: compute [start], [end], create and start thread [i]. *)
  | step_spawn cs i rest ths tot :
      step (mkConfig (MSpawn cs (i :: rest)) ths tot)
           (mkConfig (MSpawn cs rest)
                     (ths ++ [(chunk_args (size self) (num_threads self) cs i, TRunning)]) tot)
  (** The loop of line 26 is exhausted. *)
  | step_spawn_end cs ths tot :
      step (mkConfig (MSpawn cs []) ths tot) (mkConfig (MJoin 0) ths tot)
  (** A thread evaluates [sum(self.vector[start:end])]. *)
  | step_compute n a m ths tot :
      ths !! n = Some (a, TRunning) →
      step (mkConfig m ths tot)
           (mkConfig m (<[n := (a, TComputed (slice_sum (vector self) a))]> ths) tot)
  (** A thread stores its sum: [total_sum[index] = v]. *)
  | step_store n a v m ths tot tot' :
      ths !! n = Some (a, TComputed v) →
      py_setitem tot (t_index a) v = Ok tot' →
      step (mkConfig m ths tot) (mkConfig m (<[n := (a, TDone)]> ths) tot')
  (** The store raises: the thread ends and [total_sum] is unchanged. *)
  | step_store_fail n a v m ths tot e :
      ths !! n = Some (a, TComputed v) →
      py_setitem tot (t_index a) v = Raise e →
      step (mkConfig m ths tot) (mkConfig m (<[n := (a, TFailed e)]> ths) tot)
  (** [threads[n].join()] returns once that thread has terminated. *)
  | step_join n a st ths tot :
      ths !! n = Some (a, st) → terminated st = true →
      step (mkConfig (MJoin n) ths tot) (mkConfig (MJoin (S n)) ths tot)
  (** After the last join: [return sum(total_sum)]. *)
  | step_return n ths tot :
      n = length ths →
      step (mkConfig (MJoin n) ths tot) (mkConfig (MReturn (py_sum tot)) ths tot).

Definition reachable (c : config) : Prop := rtc step init_config c.

(** ** The invariant *)

(** What a thread's status says about its arguments. *)
Definition status_ok (a : targs) (st : tstatus) : Prop :=
  match st with
  | TRunning | TDone => True
  | TComputed v => v = slice_sum (vector self) a
  | TFailed _ => False
  end.

(** What slot [n] of [total_sum] holds: the sum of thread [n] once it
    has stored it, 0 before. *)
Definition status_slot (a : targs) (st : tstatus) : Z :=
  match st with TDone => slice_sum (vector self) a | _ => 0 end.

Definition slot (ths : list (targs * tstatus)) (n : nat) : Z :=
  match ths !! n with Some (a, st) => status_slot a st | None => 0 end.

Definition main_ok (m : mstate) (ths : list (targs * tstatus)) : Prop :=
  match m with
  | MSpawn cs rest =>
      num_threads self ≠ 0 ∧ cs = size self / num_threads self
      ∧ rest = drop (length ths) (py_range (num_threads self))
  | MJoin n =>
      num_threads self ≠ 0 ∧ length ths = Z.to_nat (num_threads self) ∧ (n ≤ length ths)%nat
      ∧ ∀ k a st, (k < n)%nat → ths !! k = Some (a, st) → terminated st = true
  | MReturn r =>
      num_threads self ≠ 0 ∧ r = py_sum (slice_sum (vector self) <$> args_of self)
      ∧ length ths = Z.to_nat (num_threads self)
      ∧ ∀ k a st, ths !! k = Some (a, st) → terminated st = true
  | MRaise e => e = ZeroDivisionError ∧ num_threads self = 0 ∧ ths = []
  end.

Record inv (c : config) : Prop := {
  inv_total_len : length (c_total c) = Z.to_nat (num_threads self);
  inv_args : fst <$> c_threads c = take (length (c_threads c)) (args_of self);
  inv_status : ∀ n a st, c_threads c !! n = Some (a, st) → status_ok a st;
  inv_slots : ∀ n, (n < Z.to_nat (num_threads self))%nat →
                   c_total c !! n = Some (slot (c_threads c) n);
  inv_main : main_ok (c_main c) (c_threads c)
}.
End Semantics.

Section Invariant.
Variable self : VectorSum.

Lemma inv_init : inv self (init_config self).
Proof.
  unfold init_config, py_floordiv. rewrite py_list_mul_singleton.
  case_decide as HK; split; simpl; rewrite ?length_replicate; try done;
    try (intros n ? ? Hn; by rewrite lookup_nil in Hn).
  - intros n Hn. rewrite HK in Hn. lia.
  - intros n Hn. by rewrite lookup_replicate_2.
Qed.

Section Thread.
Context (c : config) (Hinv : inv self c).

(** Thread [n] of [threads] has the arguments of iteration [n]. *)
Lemma inv_thread_args n a st :
  c_threads c !! n = Some (a, st) → args_of self !! n = Some a.
Proof.
  intros Hn. eapply (lookup_take_Some _ (length (c_threads c))).
  rewrite <- inv_args by done. by rewrite list_lookup_fmap, Hn.
Qed.

Lemma inv_thread_index n a st :
  c_threads c !! n = Some (a, st) → t_index a = Z.of_nat n ∧ (n < Z.to_nat (num_threads self))%nat.
Proof.
  intros Hn%inv_thread_args. unfold args_of in Hn. split; [by eapply thread_args_index|].
  apply lookup_lt_Some in Hn. by rewrite length_thread_args in Hn.
Qed.

Lemma inv_threads_length : (length (c_threads c) ≤ Z.to_nat (num_threads self))%nat.
Proof.
  pose proof (f_equal length (inv_args _ _ Hinv)) as Hl.
  rewrite length_fmap, length_take in Hl. unfold args_of in Hl.
  rewrite length_thread_args in Hl. lia.
Qed.

(** The store of thread [n] writes slot [n] and cannot fail. *)
Lemma inv_store_ok n a v :
  c_threads c !! n = Some (a, TComputed v) →
  py_setitem (c_total c) (t_index a) v = Ok (<[n := v]> (c_total c)).
Proof.
  intros Hn. destruct (inv_thread_index _ _ _ Hn) as [-> ?].
  rewrite py_setitem_in, Nat2Z.id; [done|].
  rewrite (inv_total_len _ _ Hinv). lia.
Qed.

(** Once every thread is joined, [total_sum] holds the partial sums. *)
Lemma inv_total_joined :
  c_main c = MJoin (length (c_threads c)) →
  c_total c = slice_sum (vector self) <$> args_of self.
Proof.
  intros Hm. pose proof (inv_main _ _ Hinv) as Hmain. rewrite Hm in Hmain.
  destruct Hmain as (HK & Hlen & _ & Hterm).
  apply list_eq. intros k. destruct (decide (k < Z.to_nat (num_threads self))%nat) as [Hk|Hk].
  - rewrite (inv_slots _ _ Hinv) by done.
    destruct (lookup_lt_is_Some_2 (c_threads c) k) as [[a st] Ha]; [lia|].
    pose proof (Hterm k a st ltac:(lia) Ha) as Ht.
    pose proof (inv_status _ _ Hinv _ _ _ Ha) as Hs.
    rewrite list_lookup_fmap, (inv_thread_args _ _ _ Ha). unfold slot. rewrite Ha.
    by destruct st.
  - rewrite !lookup_ge_None_2; [done| |];
      rewrite ?length_fmap; unfold args_of;
      rewrite ?length_thread_args, ?(inv_total_len _ _ Hinv); lia.
Qed.
End Thread.
End Invariant.

(** ** Updating one thread *)

Lemma args_insert (ths : list (targs * tstatus)) n a st st' :
  ths !! n = Some (a, st) → fst <$> <[n := (a, st')]> ths = fst <$> ths.
Proof.
  intros Hn. rewrite list_fmap_insert. apply list_insert_id.
  by rewrite list_lookup_fmap, Hn.
Qed.

Lemma status_insert self (ths : list (targs * tstatus)) n a st' :
  (∀ k b st, ths !! k = Some (b, st) → status_ok self b st) → status_ok self a st' →
  ∀ k b st, <[n := (a, st')]> ths !! k = Some (b, st) → status_ok self b st.
Proof.
  intros Hall Ha k b st Hk. rewrite list_lookup_insert in Hk.
  case_decide; [by simplify_eq|eauto].
Qed.

Lemma slot_insert_eq self (ths : list (targs * tstatus)) n p :
  (n < length ths)%nat → slot self (<[n := p]> ths) n = let '(a, st) := p in status_slot self a st.
Proof. intros Hn. unfold slot. rewrite list_lookup_insert_eq by done. by destruct p. Qed.

Lemma slot_insert_ne self (ths : list (targs * tstatus)) n k p :
  n ≠ k → slot self (<[n := p]> ths) k = slot self ths k.
Proof. intros Hne. unfold slot. by rewrite list_lookup_insert_ne. Qed.

Lemma slot_app_running self (ths : list (targs * tstatus)) a k :
  slot self (ths ++ [(a, TRunning)]) k = slot self ths k.
Proof.
  unfold slot. rewrite lookup_app. destruct (ths !! k) as [[??]|]; [done|].
  by destruct (k - length ths)%nat.
Qed.

(** Changing the status of a thread that has not terminated keeps the
    main thread's part of the invariant: [join] has not passed it. *)
Lemma main_ok_insert self m (ths : list (targs * tstatus)) n a st st' :
  ths !! n = Some (a, st) → terminated st = false →
  main_ok self m ths → main_ok self m (<[n := (a, st')]> ths).
Proof.
  intros Hn Hst. destruct m; simpl; rewrite ?length_insert; try done.
  - intros (HK & Hlen & Hle & Hterm). split_and!; try done.
    intros k b st'' Hk Hb. rewrite list_lookup_insert in Hb. case_decide as Heq.
    + destruct Heq as [<- _]. specialize (Hterm n a st Hk Hn). congruence.
    + eauto.
  - intros (HK & Hr & Hlen & Hterm). split_and!; try done.
    intros k b st'' Hb. rewrite list_lookup_insert in Hb. case_decide as Heq.
    + destruct Heq as [<- _]. specialize (Hterm n a st Hn). congruence.
    + eauto.
  - intros (? & ? & ->). by rewrite lookup_nil in Hn.
Qed.

(** ** Preservation, one lemma per kind of step *)

Section Preservation.
Variable self : VectorSum.

Lemma inv_compute c n a :
  inv self c → c_threads c !! n = Some (a, TRunning) →
  inv self (mkConfig (c_main c)
    (<[n := (a, TComputed (slice_sum (vector self) a))]> (c_threads c)) (c_total c)).
Proof.
  intros Hinv Hn. pose proof (lookup_lt_Some _ _ _ Hn) as Hlt.
  destruct Hinv as [Hlen Hargs Hst Hslots Hmain]. split; simpl.
  - done.
  - by rewrite length_insert, (args_insert _ _ _ _ _ Hn).
  - by apply status_insert.
  - intros k Hk. rewrite Hslots by done. f_equal.
    destruct (decide (n = k)) as [<-|]; [|by rewrite slot_insert_ne].
    rewrite slot_insert_eq by done. unfold slot. by rewrite Hn.
  - by apply (main_ok_insert _ _ _ _ _ TRunning).
Qed.

Lemma inv_store c n a v tot' :
  inv self c → c_threads c !! n = Some (a, TComputed v) →
  py_setitem (c_total c) (t_index a) v = Ok tot' →
  inv self (mkConfig (c_main c) (<[n := (a, TDone)]> (c_threads c)) tot').
Proof.
  intros Hinv Hn Hset. rewrite (inv_store_ok _ _ Hinv _ _ _ Hn) in Hset. simplify_eq.
  pose proof (inv_status _ _ Hinv _ _ _ Hn) as Hv; simpl in Hv.
  pose proof (proj2 (inv_thread_index _ _ Hinv _ _ _ Hn)) as HnK.
  pose proof (lookup_lt_Some _ _ _ Hn) as Hlt.
  destruct Hinv as [Hlen Hargs Hst Hslots Hmain]. split; simpl.
  - by rewrite length_insert.
  - by rewrite length_insert, (args_insert _ _ _ _ _ Hn).
  - by apply status_insert.
  - intros k Hk. destruct (decide (n = k)) as [<-|].
    + rewrite list_lookup_insert_eq, slot_insert_eq by lia. by subst v.
    + rewrite list_lookup_insert_ne, slot_insert_ne by done. auto.
  - by apply (main_ok_insert _ _ _ _ _ (TComputed v)).
Qed.

Lemma inv_store_fail c n a v e :
  inv self c → c_threads c !! n = Some (a, TComputed v) →
  py_setitem (c_total c) (t_index a) v = Raise e → False.
Proof. intros Hinv Hn. by rewrite (inv_store_ok _ _ Hinv _ _ _ Hn). Qed.
End Preservation.

Section MainSteps.
Variable self : VectorSum.

(** The [i] of an iteration of the loop is the number of threads
    created before it. *)
Lemma spawn_index (ths : list (targs * tstatus)) i rest :
  i :: rest = drop (length ths) (py_range (num_threads self)) →
  i = Z.of_nat (length ths) ∧ (length ths < Z.to_nat (num_threads self))%nat
  ∧ rest = drop (S (length ths)) (py_range (num_threads self)).
Proof.
  intros Hr. assert (py_range (num_threads self) !! length ths = Some i) as Hi.
  { by rewrite <- (Nat.add_0_r (length ths)), <- lookup_drop, <- Hr. }
  rewrite (drop_S _ _ _ Hi) in Hr. injection Hr as ->.
  unfold py_range in Hi. rewrite list_lookup_fmap in Hi.
  destruct (seq 0 _ !! _) eqn:Hs; simplify_eq/=.
  apply lookup_seq in Hs as [-> ?]. split_and!; [done|lia|done].
Qed.

Lemma inv_spawn c cs i rest :
  inv self c → c_main c = MSpawn cs (i :: rest) →
  inv self (mkConfig (MSpawn cs rest)
    (c_threads c ++ [(chunk_args (size self) (num_threads self) cs i, TRunning)]) (c_total c)).
Proof.
  intros Hinv Hm. pose proof (inv_main _ _ Hinv) as Hmain. rewrite Hm in Hmain.
  destruct Hmain as (HK & -> & (-> & Hlt & Hrest)%spawn_index).
  assert (args_of self !! length (c_threads c)
          = Some (chunk_args (size self) (num_threads self) (size self / num_threads self)
                    (Z.of_nat (length (c_threads c))))) as Ha.
  { by apply lookup_thread_args. }
  destruct Hinv as [Hlen Hargs Hst Hslots _]. split; simpl.
  - done.
  - rewrite fmap_app, length_app, Hargs, Nat.add_1_r. by rewrite (take_S_r _ _ _ Ha).
  - intros k b st [Hk|[_ Hk]]%lookup_app_Some; [eauto|].
    apply list_lookup_singleton_Some in Hk as [_ Hk]. by simplify_eq.
  - intros k Hk. rewrite slot_app_running. auto.
  - rewrite length_app, Nat.add_1_r. done.
Qed.

Lemma inv_spawn_end c cs :
  inv self c → c_main c = MSpawn cs [] → inv self (mkConfig (MJoin 0) (c_threads c) (c_total c)).
Proof.
  intros Hinv Hm. pose proof (inv_threads_length _ _ Hinv) as Hle.
  pose proof (inv_main _ _ Hinv) as Hmain. rewrite Hm in Hmain.
  destruct Hmain as (HK & _ & Hrest).
  pose proof (f_equal length Hrest) as Hl. rewrite length_drop, length_py_range in Hl.
  destruct Hinv. split; simpl; try done. split_and!; [done|simpl in Hl; lia|lia|].
  intros k ? ? Hk. lia.
Qed.

Lemma inv_join c n a st :
  inv self c → c_main c = MJoin n → c_threads c !! n = Some (a, st) → terminated st = true →
  inv self (mkConfig (MJoin (S n)) (c_threads c) (c_total c)).
Proof.
  intros Hinv Hm Hn Ht. pose proof (lookup_lt_Some _ _ _ Hn).
  pose proof (inv_main _ _ Hinv) as Hmain. rewrite Hm in Hmain.
  destruct Hmain as (HK & Hlen & _ & Hterm).
  destruct Hinv. split; simpl; try done. split_and!; [done|done|lia|].
  intros k b st' Hk Hb. destruct (decide (k = n)) as [->|]; [congruence|].
  apply (Hterm k b st'); [lia|done].
Qed.

Lemma inv_return c :
  inv self c → c_main c = MJoin (length (c_threads c)) →
  inv self (mkConfig (MReturn (py_sum (c_total c))) (c_threads c) (c_total c)).
Proof.
  intros Hinv Hm. pose proof (inv_total_joined _ _ Hinv Hm) as Htot.
  pose proof (inv_main _ _ Hinv) as Hmain. rewrite Hm in Hmain.
  destruct Hmain as (HK & Hlen & _ & Hterm).
  destruct Hinv. split; simpl; try done. split_and!; [done|by rewrite Htot|done|].
  intros k a st Hk. apply (Hterm k a st); [|done]. by eapply lookup_lt_Some.
Qed.

(** The invariant holds after every step. *)
Lemma inv_step c c' : inv self c → step self c c' → inv self c'.
Proof.
  intros Hinv Hs. destruct Hs.
  - by apply (inv_spawn (mkConfig (MSpawn cs (i :: rest)) ths tot) cs).
  - by apply (inv_spawn_end (mkConfig (MSpawn cs []) ths tot) cs).
  - by apply (inv_compute self (mkConfig m ths tot)).
  - by apply (inv_store self (mkConfig m ths tot) n a v).
  - exfalso. by apply (inv_store_fail self (mkConfig m ths tot) n a v e).
  - by apply (inv_join (mkConfig (MJoin n) ths tot) n a st).
  - subst. by apply (inv_return (mkConfig (MJoin (length ths)) ths tot)).
Qed.

(** The invariant holds in every configuration reachable from the call. *)
Lemma inv_reachable c : reachable self c → inv self c.
Proof.
  intros Hr. eapply (rtc_ind_r (inv self)); [apply inv_init| |exact Hr].
  intros c1 c2 _ Hs IH. by apply (inv_step c1).
Qed.
End MainSteps.

(** ** Termination: a measure that every step decreases *)

(** The steps a thread has left. *)
Definition thread_measure (p : targs * tstatus) : nat :=
  match p.2 with TRunning => 2 | TComputed _ => 1 | _ => 0 end.

(** The steps left in the whole configuration: the threads' own, plus
    four per loop iteration left (create, compute, store, join), plus the
    joins left and the return. *)
Definition measure (c : config) : nat :=
  sum_list_with thread_measure (c_threads c) +
  match c_main c with
  | MSpawn _ rest => 4 * length rest + length (c_threads c) + 2
  | MJoin n => length (c_threads c) - n + 1
  | _ => 0
  end.

Lemma sum_list_with_insert {A} (f : A → nat) (l : list A) n x y :
  l !! n = Some y → (sum_list_with f (<[n := x]> l) + f y = sum_list_with f l + f x)%nat.
Proof.
  revert n. induction l as [|z l IH]; intros [|n] Hn; simplify_eq/=; [lia|].
  specialize (IH n Hn). lia.
Qed.

Lemma step_measure self c c' : step self c c' → (measure c' < measure c)%nat.
Proof.
  unfold measure. destruct 1 as [| |n a m ths tot Hn|n a v m ths tot tot' Hn _
    |n a v m ths tot e Hn _|n a st ths tot Hn _|]; simpl;
    rewrite ?length_insert, ?sum_list_with_app, ?length_app; simpl.
  - lia.
  - lia.
  - pose proof (sum_list_with_insert thread_measure _ _
      (a, TComputed (slice_sum (vector self) a)) _ Hn). unfold thread_measure in *; simpl in *. destruct m; simpl; lia.
  - pose proof (sum_list_with_insert thread_measure _ _ (a, TDone) _ Hn). unfold thread_measure in *; simpl in *. destruct m; simpl; lia.
  - pose proof (sum_list_with_insert thread_measure _ _ (a, TFailed e) _ Hn). unfold thread_measure in *; simpl in *. destruct m; simpl; lia.
  - apply lookup_lt_Some in Hn. lia.
  - lia.
Qed.

(** ** Progress *)

(** The main thread has left the method. *)
Definition is_final (m : mstate) : bool :=
  match m with MReturn _ | MRaise _ => true | _ => false end.

(** What the call returns or raises, once it has left the method. *)
Definition outcome (m : mstate) : option (PyResult Z) :=
  match m with
  | MReturn r => Some (Ok r)
  | MRaise e => Some (Raise e)
  | _ => None
  end.

Section Progress.
Variable self : VectorSum.

Lemma inv_progress c : inv self c → is_final (c_main c) = false → red (step self) c.
Proof.
  intros Hinv Hf. destruct c as [m ths tot]. pose proof (inv_main _ _ Hinv) as Hmain.
  destruct m as [cs [|i rest]|n| |]; simpl in *; try done.
  - eexists. apply step_spawn_end.
  - eexists. apply step_spawn.
  - destruct Hmain as (_ & _ & Hle & _).
    destruct (decide (n = length ths)) as [->|Hne]; [eexists; by apply step_return|].
    destruct (lookup_lt_is_Some_2 ths n) as [[a st] Ha]; [lia|].
    destruct st as [|v| |e].
    + eexists. by apply step_compute.
    + destruct (py_setitem tot (t_index a) v) eqn:Hs.
      * eexists. by eapply step_store.
      * eexists. by eapply step_store_fail.
    + eexists. by eapply step_join.
    + eexists. by eapply step_join.
Qed.

Lemma inv_final_nf c : inv self c → is_final (c_main c) = true → nf (step self) c.
Proof.
  intros Hinv Hf [c' Hs]. pose proof (inv_main _ _ Hinv) as Hmain.
  destruct Hs as [| | n a m ths tot Hn| n a v m ths tot tot' Hn _
    | n a v m ths tot e Hn _| |]; simpl in *; try done;
    destruct m; try done;
    try (destruct Hmain as (_ & _ & _ & Hterm); by specialize (Hterm n _ _ Hn));
    try (destruct Hmain as (_ & _ & ->); by rewrite lookup_nil in Hn).
Qed.
End Progress.

(** ** Properties of the concurrent reducer *)

(** C2: safety.  In every interleaving, whenever the main thread has
    returned, it returned the sequential sum [_sum_vector], for every
    object the constructor can build and [num_threads >= 1]. *)
Theorem threads_return_sum (self : VectorSum) (c : config) (r : Z) :
  vs_wf self → 1 ≤ num_threads self → reachable self c → c_main c = MReturn r →
  r = _sum_vector self.
Proof.
  intros Hwf HK Hr Hm. pose proof (inv_main _ _ (inv_reachable _ _ Hr)) as Hmain.
  rewrite Hm in Hmain. destruct Hmain as (_ & -> & _).
  unfold args_of. by apply sum_partials.
Qed.

(** C3: Refinement: every interleaving that cannot go on has left the method
    with exactly the outcome of the functional reference
    [_sum_vector_with_threads] (a value, or [ZeroDivisionError]), for
    every object and every [num_threads]. *)
Theorem threads_refine (self : VectorSum) (c : config) :
  reachable self c → nf (step self) c →
  outcome (c_main c) = Some (_sum_vector_with_threads self).
Proof.
  intros Hr Hnf. pose proof (inv_reachable _ _ Hr) as Hinv.
  destruct (is_final (c_main c)) eqn:Hf; [|by destruct Hnf; apply inv_progress].
  pose proof (inv_main _ _ Hinv) as Hmain.
  destruct (c_main c) as [| |r|e]; simpl in *; try done.
  - destruct Hmain as (HK & -> & _). by rewrite _sum_vector_with_threads_unfold.
  - destruct Hmain as (-> & HK & _). unfold _sum_vector_with_threads. by rewrite HK.
Qed.

(** C7: Termination: no interleaving is infinite. *)
Theorem threads_terminate (self : VectorSum) : well_founded (λ c' c, step self c c').
Proof.
  apply (Wf_nat.well_founded_lt_compat _ measure). intros c' c. apply step_measure.
Qed.

(** C9: No deadlock: a reachable configuration is stuck exactly when the
    main thread has left the method. *)
Theorem threads_stuck_iff_final (self : VectorSum) (c : config) :
  reachable self c → nf (step self) c ↔ is_final (c_main c) = true.
Proof.
  intros Hr. pose proof (inv_reachable _ _ Hr) as Hinv. split.
  - intros Hnf. destruct (is_final (c_main c)) eqn:Hf; [done|].
    by destruct Hnf; apply inv_progress.
  - by apply inv_final_nf.
Qed.

(** C8: Liveness: whatever the scheduler did so far, and whatever it does
    next, the main thread eventually returns the sequential sum: every
    path reaches that return, and none stops before it (for every object
    the constructor can build and [num_threads >= 1]). *)
Theorem threads_eventually_return (self : VectorSum) (c : config) :
  vs_wf self → 1 ≤ num_threads self → reachable self c →
  eventually (step self) (λ c', c_main c' = MReturn (_sum_vector self)) c.
Proof.
  intros Hwf HK Hr.
  induction c as [c IH] using (well_founded_induction (Wf_nat.well_founded_ltof _ measure)).
  pose proof (inv_reachable _ _ Hr) as Hinv.
  destruct (is_final (c_main c)) eqn:Hf.
  - apply ev_now. pose proof (inv_main _ _ Hinv) as Hmain.
    destruct (c_main c) as [| |r|e]; simpl in *; try done.
    + destruct Hmain as (_ & -> & _). f_equal. by apply sum_partials.
    + destruct Hmain as (_ & HK0 & _). lia.
  - apply ev_step; [by apply (inv_progress self)|].
    intros c' Hs. apply IH; [exact (step_measure self _ _ Hs)|]. by eapply rtc_r.
Qed.

(** C10: Barrier: when the main thread returns, it has created one thread
    per slot and every one of them has finished its store. *)
Theorem threads_barrier (self : VectorSum) (c : config) (r : Z) :
  reachable self c → c_main c = MReturn r →
  length (c_threads c) = Z.to_nat (num_threads self)
  ∧ ∀ k a st, c_threads c !! k = Some (a, st) → st = TDone.
Proof.
  intros Hr Hm. pose proof (inv_reachable _ _ Hr) as Hinv.
  pose proof (inv_main _ _ Hinv) as Hmain. rewrite Hm in Hmain.
  destruct Hmain as (_ & _ & Hlen & Hterm). split; [done|].
  intros k a st Hk. pose proof (inv_status _ _ Hinv _ _ _ Hk).
  specialize (Hterm k a st Hk). by destruct st.
Qed.

(** C11: Disjoint slots: in every interleaving, slot [n] of [total_sum] holds
    0, or the sum of chunk [n] stored by thread [n] once it is done. *)
Theorem threads_slots (self : VectorSum) (c : config) (n : nat) :
  reachable self c → (n < Z.to_nat (num_threads self))%nat →
  c_total c !! n = Some 0
  ∨ ∃ a, c_threads c !! n = Some (a, TDone) ∧ args_of self !! n = Some a
         ∧ c_total c !! n = Some (slice_sum (vector self) a).
Proof.
  intros Hr Hn. pose proof (inv_reachable _ _ Hr) as Hinv.
  rewrite (inv_slots _ _ Hinv) by done. unfold slot.
  destruct (c_threads c !! n) as [[a st]|] eqn:Ha; [|by left].
  destruct st; try by left. right. exists a. split_and!; try done.
  by eapply inv_thread_args.
Qed.

(** C12: No worker failure: in no interleaving does a thread's store raise. *)
Theorem threads_no_failure (self : VectorSum) (c : config) (n : nat) (a : targs) (e : PyExc) :
  reachable self c → c_threads c !! n ≠ Some (a, TFailed e).
Proof.
  intros Hr Hn. exact (inv_status _ _ (inv_reachable _ _ Hr) _ _ _ Hn).
Qed.

(** ** A concrete interleaving *)

(** [VectorSum] over [[1; 2; 3]] with 2 threads: chunks [[0, 1)] and
    [[1, 3)]. *)
Definition self0 : VectorSum := mkVectorSum 3 2 [1; 2; 3].

Definition fin0 : config :=
  mkConfig (MReturn 6) [(mk_targs 0 1 0, TDone); (mk_targs 1 3 1, TDone)] [1; 5].

(** Both threads are started; thread 1 computes before thread 0; both
    store before the main thread leaves the loop; then the joins and the
    return. *)
Lemma run0 : reachable self0 fin0.
Proof.
  unfold reachable, init_config. simpl.
  eapply rtc_l; [apply step_spawn|]. eapply rtc_l; [apply step_spawn|].
  eapply rtc_l; [apply (step_compute _ 1%nat); reflexivity|].
  eapply rtc_l; [apply (step_compute _ 0%nat); reflexivity|].
  eapply rtc_l; [eapply (step_store _ 0%nat); reflexivity|].
  eapply rtc_l; [eapply (step_store _ 1%nat); reflexivity|].
  eapply rtc_l; [apply step_spawn_end|].
  eapply rtc_l; [eapply (step_join _ 0%nat); reflexivity|].
  eapply rtc_l; [eapply (step_join _ 1%nat); reflexivity|].
  eapply rtc_l; [apply step_return; reflexivity|].
  apply rtc_refl.
Qed.

Lemma fin0_nf : nf (step self0) fin0.
Proof. apply (inv_final_nf self0); [apply inv_reachable, run0|done]. Qed.

(** ** Witnesses on the concrete interleaving *)

Lemma threads_return_sum_witness : 6 = _sum_vector self0.
Proof. apply (threads_return_sum self0 fin0 6); [left; reflexivity|simpl; lia|apply run0|reflexivity]. Defined.

Lemma threads_refine_witness : outcome (c_main fin0) = Some (_sum_vector_with_threads self0).
Proof. apply (threads_refine self0 fin0); [apply run0|apply fin0_nf]. Defined.

Lemma threads_eventually_return_witness :
  eventually (step self0) (λ c', c_main c' = MReturn (_sum_vector self0)) (init_config self0).
Proof. apply threads_eventually_return; [left; reflexivity|simpl; lia|apply rtc_refl]. Defined.

Lemma threads_stuck_iff_final_witness : nf (step self0) fin0 ↔ is_final (c_main fin0) = true.
Proof. apply (threads_stuck_iff_final self0 fin0). apply run0. Defined.

Lemma threads_barrier_witness :
  length (c_threads fin0) = Z.to_nat (num_threads self0)
  ∧ ∀ k a st, c_threads fin0 !! k = Some (a, st) → st = TDone.
Proof. apply (threads_barrier self0 fin0 6); [apply run0|reflexivity]. Defined.

Lemma threads_slots_witness :
  c_total fin0 !! 1%nat = Some 0
  ∨ ∃ a, c_threads fin0 !! 1%nat = Some (a, TDone) ∧ args_of self0 !! 1%nat = Some a
         ∧ c_total fin0 !! 1%nat = Some (slice_sum (vector self0) a).
Proof. apply (threads_slots self0 fin0 1); [apply run0|simpl; lia]. Defined.

Lemma threads_no_failure_witness :
  c_threads fin0 !! 0%nat ≠ Some (mk_targs 0 1 0, TFailed IndexError).
Proof. apply (threads_no_failure self0 fin0). apply run0. Defined.
