(* ===== verification/Runtime.v ===== *)
(** * The object's life: construction, random data and timing

    [VectorSum.__init__] and [_generate_random_vector] (lines 7-13) draw
    [size] numbers with [random.randint(1, 100)]; [measure_sequential_time]
    and [measure_parallel_time] (lines 38-48) read [time.time()] before
    and after a sum.  The random generator and the clock belong to
    Python's library, so they are interfaces here: a [RandomSource] with
    the law [randint] keeps to its bounds ([RandomLaws]), and a [Clock]
    whose readings may go back ([time.time()] is a wall clock and promises
    no monotonicity).  The code threads the generator, the
    clock, standard input and the printed output through the calls: [io]
    is a state and error monad over that [World], with [input()]
    ([py_input]) and [print] ([py_print]) on it; an exception keeps the
    effects that happened before it. *)

From stdpp Require Import strings.
From S2P Require Import Prelude PyList Partition VectorSum.

Open Scope Z_scope.

(** ** Interfaces of the library functions the program calls *)

(** [random.randint(a, b)] on a generator state of type [R]. *)
Class RandomSource (R : Type) := randint : Z → Z → R → Z * R.

(** Python's documented contract: [a <= randint(a, b) <= b]. *)
Class RandomLaws (R : Type) `{RandomSource R} :=
  randint_range : ∀ a b r, a ≤ b → a ≤ (randint a b r).1 ≤ b.

(** [time.time()] on a clock state of type [C]; the reading is an
    integer number of clock ticks (Python returns a float of seconds). *)
Class Clock (C : Type) := time_time : C → Z * C.

(** What the program prints or plots, in order. *)
Inductive PyOutput :=
  | PrintSeq (seq_sum seq_time : Z)                (** line 80 *)
  | PrintPar (num_threads par_sum par_time : Z)    (** line 83 *)
  | Plot (xs ys : list Z) (size : Z)               (** line 64 *)
  | XLabel (label : string)                        (** line 66 *)
  | YLabel (label : string)                        (** line 67 *)
  | Legend                                         (** line 68 *)
  | Title (title : string)                         (** line 69 *)
  | Show                                           (** line 70 *)
  | Prompt (prompt : string)                       (** lines 74-75 *).

(** The state the program's library calls act on: the generator, the
    clock, the lines left on standard input, and the output so far. *)
Record World (R C : Type) := mkWorld {
  w_rng : R;
  w_clock : C;
  w_in : list string;
  w_out : list PyOutput
}.
Arguments mkWorld {R C}.
Arguments w_rng {R C}.
Arguments w_clock {R C}.
Arguments w_in {R C}.
Arguments w_out {R C}.

(** ** A state and error monad over the world *)

Definition io (W A : Type) : Type := W → PyResult A * W.

#[export] Instance io_ret W : MRet (io W) := λ A a w, (Ok a, w).
#[export] Instance io_bind W : MBind (io W) := λ A B f m w,
  match m w with
  | (Ok a, w') => f a w'
  | (Raise e, w') => (Raise e, w')
  end.

(** A pure computation that may raise, run in [io]. *)
Definition io_lift {W A} (r : PyResult A) : io W A := λ w, (r, w).

Lemma io_bind_run {W A B} (m : io W A) (f : A → io W B) (w : W) :
  (m ≫= f) w = match m w with (Ok a, w') => f a w' | (Raise e, w') => (Raise e, w') end.
Proof. reflexivity. Qed.

Lemma io_ret_run {W A} (a : A) (w : W) : (mret a : io W A) w = (Ok a, w).
Proof. reflexivity. Qed.

#[export] Hint Rewrite @io_bind_run @io_ret_run : pysimpl.

Section Runtime.
Context {R C : Type} `{RandomSource R} `{Clock C}.
Abbreviation W := (World R C).

(** ** Library calls *)

Definition py_randint (a b : Z) : io W Z := λ w,
  let '(x, r') := randint a b (w_rng w) in (Ok x, mkWorld r' (w_clock w) (w_in w) (w_out w)).

Definition py_time : io W Z := λ w,
  let '(t, c') := time_time (w_clock w) in (Ok t, mkWorld (w_rng w) c' (w_in w) (w_out w)).

Definition py_print (o : PyOutput) : io W unit := λ w,
  (Ok tt, mkWorld (w_rng w) (w_clock w) (w_in w) (w_out w ++ [o])).

(** [input(prompt)]: writes the prompt, then returns the next line of
    standard input without its newline; at the end of the input it
    raises [EOFError]. *)
Definition py_input (prompt : string) : io W string := λ w,
  let out := w_out w ++ [Prompt prompt] in
  match w_in w with
  | line :: lines => (Ok line, mkWorld (w_rng w) (w_clock w) lines out)
  | [] => (Raise EOFError, mkWorld (w_rng w) (w_clock w) [] out)
  end.

(** ** The class's methods *)

(** [[random.randint(1, 100) for _ in range(n)]], drawn left to right. *)
Fixpoint randint_list (n : nat) : io W (list Z) :=
  match n with
  | O => mret []
  | S n' => x ← py_randint 1 100; xs ← randint_list n'; mret (x :: xs)
  end.

(** [_generate_random_vector] (lines 12-13). *)
Definition _generate_random_vector (size : Z) : io W (list Z) :=
  randint_list (Z.to_nat size).

(** [VectorSum(size, num_threads)] (lines 7-10). *)
Definition __init__ (size num_threads : Z) : io W VectorSum :=
  vector ← _generate_random_vector size;
  mret (mkVectorSum size num_threads vector).

(** [measure_sequential_time] (lines 38-42). *)
Definition measure_sequential_time (self : VectorSum) : io W (Z * Z) :=
  start_time ← py_time;
  let total_sum := _sum_vector self in
  end_time ← py_time;
  mret (end_time - start_time, total_sum).

(** [measure_parallel_time] (lines 44-48); the threaded sum may raise. *)
Definition measure_parallel_time (self : VectorSum) : io W (Z * Z) :=
  start_time ← py_time;
  total_sum ← io_lift (_sum_vector_with_threads self);
  end_time ← py_time;
  mret (end_time - start_time, total_sum).
End Runtime.

(** ** Construction *)

Section Construction.
Context {R C : Type} `{RandomSource R} `{Clock C}.

(** The comprehension always returns [n] numbers and only advances the
    generator. *)
Lemma randint_list_ok (n : nat) (w : World R C) :
  ∃ xs r', randint_list n w = (Ok xs, mkWorld r' (w_clock w) (w_in w) (w_out w)) ∧ length xs = n.
Proof.
  revert w. induction n as [|n IH]; intros [r c i o]; simpl.
  - by exists [], r.
  - rewrite io_bind_run. unfold py_randint at 1. simpl.
    destruct (randint 1 100 r) as [x r1] eqn:Hx.
    destruct (IH (mkWorld r1 c i o)) as (xs & r' & Hrun & Hlen).
    rewrite io_bind_run, Hrun. exists (x :: xs), r'. simpl. by rewrite Hlen.
Qed.

Context `{!RandomLaws R}.

(** With [randint]'s contract, every drawn number is in [[1, 100]]. *)
Lemma randint_list_range (n : nat) (w w' : World R C) (xs : list Z) :
  randint_list n w = (Ok xs, w') → Forall (λ x, 1 ≤ x ≤ 100) xs.
Proof.
  revert w w' xs. induction n as [|n IH]; intros [r c i o] w' xs Hrun; simpl in Hrun.
  - rewrite io_ret_run in Hrun. injection Hrun as <- _. constructor.
  - rewrite io_bind_run in Hrun. unfold py_randint at 1 in Hrun. simpl in Hrun.
    pose proof (randint_range 1 100 r ltac:(lia)) as Hb.
    destruct (randint 1 100 r) as [x r1]. simpl in Hb.
    rewrite io_bind_run in Hrun.
    destruct (randint_list n (mkWorld r1 c i o)) as [[ys|e] w1] eqn:Hys; [|done].
    rewrite io_ret_run in Hrun. injection Hrun as <- _.
    constructor; [done|]. by eapply IH.
Qed.
End Construction.

(** ** Running the methods *)

Section Runs.
Context {R C : Type} `{RandomSource R} `{Clock C}.

Lemma py_time_run (w : World R C) :
  ∃ t w', py_time w = (Ok t, w') ∧ w_out w' = w_out w ∧ w_rng w' = w_rng w.
Proof.
  unfold py_time. destruct (time_time (w_clock w)) as [t c']. by eexists _, _.
Qed.

(** The constructor never raises, builds an object satisfying [vs_wf],
    and prints nothing. *)
Lemma init_run (sz k : Z) (w : World R C) :
  ∃ self w', __init__ sz k w = (Ok self, w')
    ∧ vs_wf self ∧ size self = sz ∧ num_threads self = k ∧ w_out w' = w_out w.
Proof.
  unfold __init__, _generate_random_vector. rewrite io_bind_run.
  destruct (randint_list_ok (Z.to_nat sz) w) as (xs & r' & Hrun & Hlen). rewrite Hrun.
  eexists _, _. split; [reflexivity|]. simpl. split_and!; [|done|done|done].
  destruct (decide (0 ≤ sz)); [left; simpl; lia|right; simpl].
  split; [lia|]. apply length_zero_iff_nil. lia.
Qed.

Lemma measure_sequential_run (self : VectorSum) (w : World R C) :
  ∃ t w', measure_sequential_time self w = (Ok (t, _sum_vector self), w') ∧ w_out w' = w_out w.
Proof.
  unfold measure_sequential_time. rewrite io_bind_run.
  destruct (py_time_run w) as (t1 & w1 & -> & Ho1 & _). rewrite io_bind_run.
  destruct (py_time_run w1) as (t2 & w2 & -> & Ho2 & _).
  eexists _, _. split; [reflexivity|]. congruence.
Qed.

(** With [num_threads <> 0], the parallel measurement returns the sum of
    the partial sums and prints nothing. *)
Lemma measure_parallel_run (self : VectorSum) (w : World R C) :
  num_threads self ≠ 0 →
  ∃ t w', measure_parallel_time self w
          = (Ok (t, py_sum (slice_sum (vector self) <$>
                   thread_args (size self) (num_threads self) (size self / num_threads self))), w')
        ∧ w_out w' = w_out w.
Proof.
  intros HK. unfold measure_parallel_time. rewrite io_bind_run.
  destruct (py_time_run w) as (t1 & w1 & -> & Ho1 & _). rewrite io_bind_run.
  unfold io_lift. rewrite _sum_vector_with_threads_unfold by done. rewrite io_bind_run.
  destruct (py_time_run w1) as (t2 & w2 & -> & Ho2 & _).
  eexists _, _. split; [reflexivity|]. congruence.
Qed.

Lemma measure_parallel_raise (self : VectorSum) (w : World R C) :
  num_threads self = 0 →
  ∃ w', measure_parallel_time self w = (Raise ZeroDivisionError, w') ∧ w_out w' = w_out w.
Proof.
  intros HK. unfold measure_parallel_time. rewrite io_bind_run.
  destruct (py_time_run w) as (t1 & w1 & -> & Ho & _). rewrite io_bind_run.
  unfold io_lift, _sum_vector_with_threads. rewrite HK, py_floordiv_zero. by eexists.
Qed.
End Runs.

(** ** Concrete library implementations *)

(** A linear congruential generator behind [randint]. *)
Record LcgState := mkLcg { lcg_seed : Z }.

#[export] Instance lcg_random : RandomSource LcgState := λ a b s,
  (a + lcg_seed s mod (b - a + 1), mkLcg ((1103515245 * lcg_seed s + 12345) mod 2147483648)).

#[export] Instance lcg_random_laws : RandomLaws LcgState.
Proof.
  intros a b s Hab. unfold randint, lcg_random. simpl.
  pose proof (Z.mod_pos_bound (lcg_seed s) (b - a + 1) ltac:(lia)). lia.
Qed.

(** A clock that ticks once per reading. *)
Record TickClock := mkTick { ticks : Z }.

#[export] Instance tick_clock : Clock TickClock := λ c, (ticks c, mkTick (ticks c + 1)).

(** A wall clock that replays the readings the system gives, which an
    adjustment of the system time can make decrease. *)
Record WallClock := mkWall { readings : list Z }.

#[export] Instance wall_clock : Clock WallClock := λ c,
  match readings c with
  | t :: ts => (t, mkWall ts)
  | [] => (0, mkWall [])
  end.

(** ** Properties of construction and measurement *)

(** C18: The constructor never raises and builds an object whose [size] and
    [vector] agree as [vs_wf] says: [size] elements when [size >= 0],
    none otherwise. *)
Theorem init_establishes_wf {R C} `{RandomSource R} `{Clock C} (sz k : Z) (w : World R C) :
  ∃ self w', __init__ sz k w = (Ok self, w')
    ∧ vs_wf self ∧ size self = sz ∧ num_threads self = k.
Proof.
  destruct (init_run sz k w) as (self & w' & ? & ? & ? & ? & _). by exists self, w'.
Qed.

(** Every element of a constructed vector is in [[1, 100]]. *)
Lemma init_vector_range {R C} `{RandomLaws R} `{Clock C} (sz k : Z) (w w' : World R C) (self : VectorSum) :
  __init__ sz k w = (Ok self, w') → Forall (λ x, 1 ≤ x ≤ 100) (vector self).
Proof.
  unfold __init__, _generate_random_vector. rewrite io_bind_run.
  destruct (randint_list (Z.to_nat sz) w) as [[xs|e] w1] eqn:Hrun; [|done].
  rewrite io_ret_run. intros Hs. injection Hs as <- _. by eapply randint_list_range.
Qed.

(** C17: Type: every object the constructor builds has the type the
    program relies on ([vs_typed]: [size] elements when [size >= 0], none
    otherwise, each an int of [[1, 100]]), whatever the generator's
    state, given [randint]'s documented bounds. *)
Theorem init_typed {R C} `{RandomLaws R} `{Clock C} (sz k : Z) (w : World R C) :
  ∃ self w', __init__ sz k w = (Ok self, w') ∧ vs_typed self ∧ size self = sz ∧ num_threads self = k.
Proof.
  destruct (init_run sz k w) as (self & w' & Hinit & Hwf & Hs & Hk & _).
  exists self, w'. split_and!; try done. split; [done|]. by eapply init_vector_range.
Qed.

(** C16: Timing, on every branch and for every clock: each measurement
    reads the clock, computes its sum, reads the clock again, and returns
    the second reading minus the first with the sum, printing nothing;
    when the threaded sum raises, the parallel measurement raises the same
    exception after its first reading only.  Nothing constrains the sign
    of the difference: [time.time()] may go back between the readings. *)
Theorem measure_time_readings {R C} `{RandomSource R} `{Clock C}
    (self : VectorSum) (w : World R C) (t1 t2 : Z) (c1 c2 : C) :
  time_time (w_clock w) = (t1, c1) → time_time c1 = (t2, c2) →
  measure_sequential_time self w
    = (Ok (t2 - t1, _sum_vector self), mkWorld (w_rng w) c2 (w_in w) (w_out w))
  ∧ measure_parallel_time self w
    = match _sum_vector_with_threads self with
      | Ok s => (Ok (t2 - t1, s), mkWorld (w_rng w) c2 (w_in w) (w_out w))
      | Raise e => (Raise e, mkWorld (w_rng w) c1 (w_in w) (w_out w))
      end.
Proof.
  intros E1 E2. unfold measure_sequential_time, measure_parallel_time, py_time, io_lift.
  rewrite !io_bind_run, E1. simpl. split.
  - rewrite io_bind_run. simpl. by rewrite E2.
  - rewrite io_bind_run. destruct (_sum_vector_with_threads self); [|done].
    rewrite io_bind_run. simpl. by rewrite E2.
Qed.

(** ** Witnesses on concrete inputs *)

Lemma init_vector_range_witness : Forall (λ x, 1 ≤ x ≤ 100) (vector (mkVectorSum 3 2 [8; 17; 34])).
Proof.
  apply (init_vector_range 3 2 (mkWorld (mkLcg 7) (mkTick 0) [] [])
           (mkWorld (mkLcg 712265938) (mkTick 0) [] [])).
  vm_compute. reflexivity.
Defined.

(** The object the linear congruential generator from seed 7 gives for
    [VectorSum(3, 2)] has the program's type, as [decide] computes. *)
Example init_lcg_typed :
  (__init__ 3 2 (mkWorld (mkLcg 7) (mkTick 0) [] [])).1 = Ok (mkVectorSum 3 2 [8; 17; 34])
  ∧ vs_typed (mkVectorSum 3 2 [8; 17; 34]).
Proof. split; [reflexivity|]. by apply (bool_decide_eq_true_1 _). Qed.

Lemma init_typed_witness :
  ∃ self w', __init__ 3 2 (mkWorld (mkLcg 7) (mkTick 0) [] []) = (Ok self, w')
    ∧ vs_typed self ∧ size self = 3 ∧ num_threads self = 2.
Proof. apply (init_typed 3 2 (mkWorld (mkLcg 7) (mkTick 0) [] [])). Defined.

(** On a wall clock set back from 10 to 7 between the readings, the
    parallel measurement reports an elapsed time of -3. *)
Lemma measure_time_readings_witness :
  measure_sequential_time (mkVectorSum 3 1 [1; 2; 3]) (mkWorld (mkLcg 7) (mkWall [10; 7]) [] [])
    = (Ok (7 - 10, _sum_vector (mkVectorSum 3 1 [1; 2; 3])), mkWorld (mkLcg 7) (mkWall []) [] [])
  ∧ measure_parallel_time (mkVectorSum 3 1 [1; 2; 3]) (mkWorld (mkLcg 7) (mkWall [10; 7]) [] [])
    = match _sum_vector_with_threads (mkVectorSum 3 1 [1; 2; 3]) with
      | Ok s => (Ok (7 - 10, s), mkWorld (mkLcg 7) (mkWall []) [] [])
      | Raise e => (Raise e, mkWorld (mkLcg 7) (mkWall [7]) [] [])
      end.
Proof. apply (measure_time_readings _ (mkWorld (mkLcg 7) (mkWall [10; 7]) [] [])); reflexivity. Defined.
