(* ===== verification/Driver.v ===== *)
(** * The driver: [ExecutionTimeGraph] and [main]

    [ExecutionTimeGraph.generate_graph] (lines 50-70) builds one
    [VectorSum] per vector size with one thread, then for each thread
    count sets [num_threads] on that same object and measures the
    parallel time; each size gives one plotted series.  [main] (lines
    73-91) reads two ints with [int(input(...))] ([read_int]), builds the
    object, prints both measurements, asserts that the two sums agree,
    and draws the graph ([main_after_input], from line 77 on).  The
    prompts, the printed values, the plotted series and the plot's
    labels, legend and title are recorded in the world's output. *)

From stdpp Require Import strings.
From S2P Require Import Prelude PyList PyInt Partition VectorSum Runtime.

Open Scope Z_scope.

(** The attributes of an [ExecutionTimeGraph] (lines 51-53). *)
Record ExecutionTimeGraph := mkGraph {
  vector_sizes : list Z;
  num_threads_list : list Z
}.

Section Driver.
Context {R C : Type} `{RandomSource R} `{Clock C}.
Abbreviation W := (World R C).

(** The inner loop (lines 59-62): the object's [num_threads] is set in
    place before each measurement. *)
Fixpoint time_threads (vector_sum : VectorSum) (nts : list Z) : io W (list Z) :=
  match nts with
  | [] => mret []
  | k :: nts' =>
      let vector_sum := mkVectorSum (size vector_sum) k (vector vector_sum) in
      '(par_time, _) ← measure_parallel_time vector_sum;
      times ← time_threads vector_sum nts';
      mret (par_time :: times)
  end.

(** The outer loop (lines 56-64): one series per vector size. *)
Fixpoint plot_sizes (sizes nts : list Z) : io W unit :=
  match sizes with
  | [] => mret tt
  | sz :: sizes' =>
      vector_sum ← __init__ sz 1;
      times ← time_threads vector_sum nts;
      _ ← py_print (Plot nts times sz);
      plot_sizes sizes' nts
  end.

(** [generate_graph] (lines 55-70). *)
Definition generate_graph (self : ExecutionTimeGraph) : io W unit :=
  _ ← plot_sizes (vector_sizes self) (num_threads_list self);
  _ ← py_print (XLabel "Number of Threads");
  _ ← py_print (YLabel "Execution Time (s)");
  _ ← py_print Legend;
  _ ← py_print (Title "Execution Time vs Number of Threads");
  py_print Show.

(** What [generate_graph] draws after the series: the axis labels, the
    legend, the title, then [plt.show()]. *)
Definition graph_footer : list PyOutput :=
  [XLabel "Number of Threads"; YLabel "Execution Time (s)"; Legend;
   Title "Execution Time vs Number of Threads"; Show].

(** [assert cond, msg]. *)
Definition py_assert (b : bool) : io W unit :=
  if b then mret tt else io_lift (Raise AssertionError).

(** [main] from line 77 on, once the two values are read. *)
Definition main_after_input (vector_size num_threads : Z) : io W unit :=
  vector_sum ← __init__ vector_size num_threads;
  '(seq_time, seq_sum) ← measure_sequential_time vector_sum;
  _ ← py_print (PrintSeq seq_sum seq_time);
  '(par_time, par_sum) ← measure_parallel_time vector_sum;
  _ ← py_print (PrintPar num_threads par_sum par_time);
  _ ← py_assert (bool_decide (seq_sum = par_sum));
  generate_graph (mkGraph [10 ^ 4; 10 ^ 5; 10 ^ 6] [1; 2; 4; 8; 16; 32]).

Definition size_prompt : string := "Enter the size of the vector: ".
Definition threads_prompt : string := "Enter the number of threads: ".

(** [int(input(prompt))] (lines 74-75). *)
Definition read_int (prompt : string) : io W Z :=
  line ← py_input prompt;
  io_lift (py_int line).

(** [main] (lines 73-91). *)
Definition main : io W unit :=
  vector_size ← read_int size_prompt;
  num_threads ← read_int threads_prompt;
  main_after_input vector_size num_threads.
End Driver.

(** ** Running the loops *)

Section Runs.
Context {R C : Type} `{RandomSource R} `{Clock C}.

Lemma py_print_run (o : PyOutput) (w : World R C) :
  py_print o w = (Ok tt, mkWorld (w_rng w) (w_clock w) (w_in w) (w_out w ++ [o])).
Proof. reflexivity. Qed.

(** With no zero thread count, the inner loop measures every count and
    prints nothing. *)
Lemma time_threads_run (vs : VectorSum) (nts : list Z) (w : World R C) :
  Forall (λ k, k ≠ 0) nts →
  ∃ times w', time_threads vs nts w = (Ok times, w')
    ∧ length times = length nts ∧ w_out w' = w_out w.
Proof.
  intros Hnz. revert vs w. induction Hnz as [|k nts Hk Hnz IH]; intros vs w; simpl.
  - by eexists _, _.
  - rewrite io_bind_run.
    destruct (measure_parallel_run (mkVectorSum (size vs) k (vector vs)) w Hk)
      as (t & w1 & -> & Ho1).
    simpl. rewrite io_bind_run.
    destruct (IH (mkVectorSum (size vs) k (vector vs)) w1) as (times & w2 & -> & Hl & Ho2).
    eexists _, _. rewrite io_ret_run. split; [reflexivity|]. simpl. split; congruence.
Qed.

(** A zero thread count makes the inner loop raise. *)
Lemma time_threads_raise (vs : VectorSum) (nts : list Z) (w : World R C) :
  0 ∈ nts → ∃ w', time_threads vs nts w = (Raise ZeroDivisionError, w').
Proof.
  revert vs w. induction nts as [|k nts IH]; intros vs w Hin;
    [by apply not_elem_of_nil in Hin|]. simpl. rewrite io_bind_run.
  destruct (decide (k = 0)) as [->|Hk].
  - destruct (measure_parallel_raise (mkVectorSum (size vs) 0 (vector vs)) w eq_refl)
      as [w1 [-> _]]. by eexists.
  - destruct (measure_parallel_run (mkVectorSum (size vs) k (vector vs)) w Hk)
      as (t & w1 & -> & _).
    simpl. rewrite io_bind_run.
    apply elem_of_cons in Hin as [?|Hin]; [congruence|].
    destruct (IH (mkVectorSum (size vs) k (vector vs)) w1 Hin) as [w2 ->]. by eexists.
Qed.

(** The outer loop plots one series per size, in order, each with one
    time per thread count. *)
Lemma plot_sizes_run (sizes nts : list Z) (w : World R C) :
  Forall (λ k, k ≠ 0) nts →
  ∃ outs w', plot_sizes sizes nts w = (Ok tt, w') ∧ w_out w' = w_out w ++ outs
    ∧ Forall2 (λ sz o, ∃ ys, o = Plot nts ys sz ∧ length ys = length nts) sizes outs.
Proof.
  intros Hnz. revert w. induction sizes as [|sz sizes IH]; intros w; simpl.
  - exists [], w. by rewrite app_nil_r.
  - rewrite io_bind_run. destruct (init_run sz 1 w) as (vs & w1 & -> & _ & _ & _ & Ho1).
    rewrite io_bind_run. destruct (time_threads_run vs nts w1 Hnz) as (ys & w2 & -> & Hl & Ho2).
    rewrite !io_bind_run, py_print_run.
    destruct (IH (mkWorld (w_rng w2) (w_clock w2) (w_in w2) (w_out w2 ++ [Plot nts ys sz])))
      as (outs & w3 & -> & Ho3 & Hall).
    exists (Plot nts ys sz :: outs), w3. split_and!; [done| |].
    + rewrite Ho3. simpl. rewrite Ho2, Ho1, <- app_assoc. done.
    + constructor; [by exists ys|done].
Qed.

Lemma generate_graph_run (g : ExecutionTimeGraph) (w : World R C) :
  Forall (λ k, k ≠ 0) (num_threads_list g) →
  ∃ outs w', generate_graph g w = (Ok tt, w') ∧ w_out w' = w_out w ++ outs ++ graph_footer
    ∧ Forall2 (λ sz o, ∃ ys, o = Plot (num_threads_list g) ys sz
                             ∧ length ys = length (num_threads_list g)) (vector_sizes g) outs.
Proof.
  intros Hnz. unfold generate_graph. rewrite io_bind_run.
  destruct (plot_sizes_run (vector_sizes g) (num_threads_list g) w Hnz)
    as (outs & w1 & -> & Ho & Hall).
  rewrite !io_bind_run, !py_print_run. eexists _, _. split_and!; [reflexivity| |done].
  simpl. rewrite Ho. unfold graph_footer. by rewrite <- !app_assoc.
Qed.
End Runs.

(** ** Reading the input *)

Section Input.
Context {R C : Type} `{RandomSource R} `{Clock C}.

(** [int(input(prompt))] on a line: the prompt is printed, the line is
    consumed, and the outcome is that of [int] on it. *)
Lemma read_int_line (prompt line : string) (lines : list string) (w : World R C) :
  w_in w = line :: lines →
  read_int prompt w
  = (py_int line, mkWorld (w_rng w) (w_clock w) lines (w_out w ++ [Prompt prompt])).
Proof.
  intros Hin. unfold read_int, py_input. rewrite io_bind_run, Hin.
  unfold io_lift. by destruct (py_int line).
Qed.

Lemma read_int_eof (prompt : string) (w : World R C) :
  w_in w = [] →
  read_int prompt w = (Raise EOFError, mkWorld (w_rng w) (w_clock w) [] (w_out w ++ [Prompt prompt])).
Proof. intros Hin. unfold read_int, py_input. by rewrite io_bind_run, Hin. Qed.

(** When both lines hold ints, [main] prints the two prompts and goes on
    with the two values. *)
Lemma main_inputs (s1 s2 : string) (rest : list string) (n k : Z) (w : World R C) :
  w_in w = s1 :: s2 :: rest → py_int s1 = Ok n → py_int s2 = Ok k →
  main w = main_after_input n k
             (mkWorld (w_rng w) (w_clock w) rest (w_out w ++ [Prompt size_prompt; Prompt threads_prompt])).
Proof.
  intros Hin H1 H2. unfold main. rewrite io_bind_run, (read_int_line _ s1 (s2 :: rest)), H1 by done.
  rewrite io_bind_run, (read_int_line _ s2 rest), H2 by done. simpl. by rewrite <- app_assoc.
Qed.
End Input.

(** From line 77 on, with [num_threads >= 1]: the assertion of line 85
    holds, both printed lines carry the same sum, and the graph is drawn. *)
Lemma main_after_input_completes {R C} `{RandomSource R} `{Clock C} (vector_size k : Z) (w : World R C) :
  1 ≤ k →
  ∃ w' s t1 t2 outs, main_after_input vector_size k w = (Ok tt, w')
    ∧ w_out w' = w_out w ++ [PrintSeq s t1; PrintPar k s t2] ++ outs ++ graph_footer.
Proof.
  intros HK. unfold main_after_input. rewrite io_bind_run.
  destruct (init_run vector_size k w) as (vs & w1 & -> & Hwf & _ & Hk & Ho1).
  rewrite io_bind_run. destruct (measure_sequential_run vs w1) as (t1 & w2 & -> & Ho2).
  cbv beta iota. rewrite io_bind_run, py_print_run, io_bind_run.
  destruct (measure_parallel_run vs (mkWorld (w_rng w2) (w_clock w2) (w_in w2) (w_out w2 ++ [PrintSeq (_sum_vector vs) t1])))
    as (t2 & w3 & -> & Ho3); [lia|].
  cbv beta iota. rewrite sum_partials by (done || lia).
  rewrite io_bind_run, py_print_run, io_bind_run, bool_decide_eq_true_2 by done.
  unfold py_assert. rewrite io_ret_run.
  edestruct (generate_graph_run (mkGraph [10 ^ 4; 10 ^ 5; 10 ^ 6] [1; 2; 4; 8; 16; 32]))
    as (outs & w4 & -> & Ho4 & _); [repeat constructor; discriminate|].
  exists w4, (_sum_vector vs), t1, t2, outs. split; [done|].
  rewrite Ho4. simpl. rewrite Ho3. simpl. rewrite Ho2, Ho1, <- !app_assoc. done.
Qed.

(** With [num_threads = 0]: the sequential line is printed, then the
    parallel measurement raises [ZeroDivisionError]. *)
Lemma main_after_input_zero {R C} `{RandomSource R} `{Clock C} (vector_size : Z) (w : World R C) :
  ∃ w' s t, main_after_input vector_size 0 w = (Raise ZeroDivisionError, w') ∧ w_out w' = w_out w ++ [PrintSeq s t].
Proof.
  unfold main_after_input. rewrite io_bind_run.
  destruct (init_run vector_size 0 w) as (vs & w1 & -> & _ & _ & Hk & Ho1).
  rewrite io_bind_run. destruct (measure_sequential_run vs w1) as (t1 & w2 & -> & Ho2).
  cbv beta iota. rewrite io_bind_run, py_print_run, io_bind_run.
  destruct (measure_parallel_raise vs (mkWorld (w_rng w2) (w_clock w2) (w_in w2) (w_out w2 ++ [PrintSeq (_sum_vector vs) t1])) Hk)
    as (w3 & -> & Ho3).
  eexists _, (_sum_vector vs), t1. split; [reflexivity|].
  rewrite Ho3. simpl. by rewrite Ho2, Ho1.
Qed.

(** With a negative [num_threads] and a nonempty vector: the parallel
    line prints 0 and the assertion of line 85 fails. *)
Lemma main_after_input_negative {R C} `{RandomLaws R} `{Clock C} (vector_size k : Z) (w : World R C) :
  k < 0 → 1 ≤ vector_size →
  ∃ w' s t1 t2, main_after_input vector_size k w = (Raise AssertionError, w')
    ∧ w_out w' = w_out w ++ [PrintSeq s t1; PrintPar k 0 t2] ∧ vector_size ≤ s.
Proof.
  intros HK Hsz. unfold main_after_input. rewrite io_bind_run.
  destruct (init_run vector_size k w) as (vs & w1 & Hinit & Hwf & Hs & Hk & Ho1).
  pose proof (init_vector_range _ _ _ _ _ Hinit) as Hrange. rewrite Hinit.
  assert (vector_size ≤ _sum_vector vs) as Hsum.
  { destruct Hwf as [Hl|[? _]]; [|lia]. unfold _sum_vector.
    pose proof (py_sum_bounds 1 100 _ Hrange). lia. }
  rewrite io_bind_run. destruct (measure_sequential_run vs w1) as (t1 & w2 & -> & Ho2).
  cbv beta iota. rewrite io_bind_run, py_print_run, io_bind_run.
  destruct (measure_parallel_run vs (mkWorld (w_rng w2) (w_clock w2) (w_in w2) (w_out w2 ++ [PrintSeq (_sum_vector vs) t1])))
    as (t2 & w3 & -> & Ho3); [lia|].
  cbv beta iota. unfold thread_args. rewrite Hk, py_range_nonpos by lia. simpl.
  rewrite io_bind_run, py_print_run, io_bind_run, bool_decide_eq_false_2 by (rewrite py_sum_nil; lia).
  eexists _, (_sum_vector vs), t1, t2. split; [reflexivity|]. split; [|done].
  simpl. rewrite Ho3. simpl. rewrite Ho2, Ho1, py_sum_nil, <- !app_assoc. done.
Qed.

(** ** Properties of the driver *)

(** C25: The graph the program draws (sizes [10^4], [10^5], [10^6], thread
    counts [1, 2, 4, 8, 16, 32]) never raises: it plots three series, one
    per size and in that order, each with six times, then shows them. *)
Theorem program_graph_series {R C} `{RandomSource R} `{Clock C} (w : World R C) :
  ∃ outs w', generate_graph (mkGraph [10 ^ 4; 10 ^ 5; 10 ^ 6] [1; 2; 4; 8; 16; 32]) w = (Ok tt, w')
    ∧ w_out w' = w_out w ++ outs ++ graph_footer
    ∧ Forall2 (λ sz o, ∃ ys, o = Plot [1; 2; 4; 8; 16; 32] ys sz ∧ length ys = 6%nat)
              [10 ^ 4; 10 ^ 5; 10 ^ 6] outs.
Proof.
  apply generate_graph_run. repeat constructor; discriminate.
Qed.

(** C26: A thread count of 0 in the graph's list makes [generate_graph] raise
    [ZeroDivisionError] as soon as there is a size to plot. *)
Theorem generate_graph_zero {R C} `{RandomSource R} `{Clock C} (g : ExecutionTimeGraph) (w : World R C) :
  vector_sizes g ≠ [] → 0 ∈ num_threads_list g →
  (generate_graph g w).1 = Raise ZeroDivisionError.
Proof.
  intros Hs Hin. destruct g as [[|sz sizes] nts]; simpl in *; [done|].
  unfold generate_graph. simpl. rewrite !io_bind_run.
  destruct (init_run sz 1 w) as (vs & w1 & -> & _). rewrite io_bind_run.
  by destruct (time_threads_raise vs nts w1 Hin) as [w2 ->].
Qed.

(** C15: [main] on two input lines that [int] reads as [vector_size] and
    [num_threads >= 1]: after the two prompts, the assertion of line 85
    holds, both printed lines carry the same sum, and the graph is drawn. *)
Theorem main_completes {R C} `{RandomSource R} `{Clock C} (s1 s2 : string) (rest : list string)
    (vector_size k : Z) (w : World R C) :
  w_in w = s1 :: s2 :: rest → py_int s1 = Ok vector_size → py_int s2 = Ok k → 1 ≤ k →
  ∃ w' s t1 t2 outs, main w = (Ok tt, w')
    ∧ w_out w' = w_out w ++ [Prompt size_prompt; Prompt threads_prompt; PrintSeq s t1; PrintPar k s t2]
                 ++ outs ++ graph_footer.
Proof.
  intros Hin Hs1 Hs2 HK. rewrite (main_inputs s1 s2 rest vector_size k) by done.
  destruct (main_after_input_completes vector_size k
              (mkWorld (w_rng w) (w_clock w) rest (w_out w ++ [Prompt size_prompt; Prompt threads_prompt])) HK)
    as (w' & s & t1 & t2 & outs & -> & Ho).
  exists w', s, t1, t2, outs. split; [done|]. rewrite Ho. simpl. by rewrite <- app_assoc.
Qed.

(** C22: [main] on input lines read as [vector_size] and [0]: after the
    prompts the sequential line is printed, then the parallel measurement
    raises [ZeroDivisionError]. *)
Theorem main_zero_threads {R C} `{RandomSource R} `{Clock C} (s1 s2 : string) (rest : list string)
    (vector_size : Z) (w : World R C) :
  w_in w = s1 :: s2 :: rest → py_int s1 = Ok vector_size → py_int s2 = Ok 0 →
  ∃ w' s t, main w = (Raise ZeroDivisionError, w')
    ∧ w_out w' = w_out w ++ [Prompt size_prompt; Prompt threads_prompt; PrintSeq s t].
Proof.
  intros Hin Hs1 Hs2. rewrite (main_inputs s1 s2 rest vector_size 0) by done.
  destruct (main_after_input_zero vector_size
              (mkWorld (w_rng w) (w_clock w) rest (w_out w ++ [Prompt size_prompt; Prompt threads_prompt])))
    as (w' & s & t & -> & Ho).
  exists w', s, t. split; [done|]. rewrite Ho. simpl. by rewrite <- app_assoc.
Qed.

(** C23: [main] on input lines read as [vector_size >= 1] and a negative
    [num_threads]: the parallel line prints 0 and the assertion of line 85
    fails. *)
Theorem main_negative_threads {R C} `{RandomLaws R} `{Clock C} (s1 s2 : string) (rest : list string)
    (vector_size k : Z) (w : World R C) :
  w_in w = s1 :: s2 :: rest → py_int s1 = Ok vector_size → py_int s2 = Ok k →
  k < 0 → 1 ≤ vector_size →
  ∃ w' s t1 t2, main w = (Raise AssertionError, w')
    ∧ w_out w' = w_out w ++ [Prompt size_prompt; Prompt threads_prompt; PrintSeq s t1; PrintPar k 0 t2]
    ∧ vector_size ≤ s.
Proof.
  intros Hin Hs1 Hs2 HK Hsz. rewrite (main_inputs s1 s2 rest vector_size k) by done.
  destruct (main_after_input_negative vector_size k
              (mkWorld (w_rng w) (w_clock w) rest (w_out w ++ [Prompt size_prompt; Prompt threads_prompt])) HK Hsz)
    as (w' & s & t1 & t2 & -> & Ho & Hs).
  exists w', s, t1, t2. split_and!; [done| |done]. rewrite Ho. simpl. by rewrite <- app_assoc.
Qed.

(** C24: Input that is not an int: when the first line is not an int
    literal [main] raises [ValueError] right after the first prompt,
    reading no other line; when the input ends before the first line it
    raises [EOFError]. *)
Theorem main_bad_input {R C} `{RandomSource R} `{Clock C} (s1 : string) (rest : list string) (w : World R C) :
  (w_in w = s1 :: rest → py_int s1 = Raise ValueError →
   main w = (Raise ValueError, mkWorld (w_rng w) (w_clock w) rest (w_out w ++ [Prompt size_prompt])))
  ∧ (w_in w = [] →
     main w = (Raise EOFError, mkWorld (w_rng w) (w_clock w) [] (w_out w ++ [Prompt size_prompt]))).
Proof.
  unfold main. split.
  - intros Hin Hs1. by rewrite io_bind_run, (read_int_line _ s1 rest), Hs1.
  - intros Hin. by rewrite io_bind_run, read_int_eof.
Qed.

(** ** Witnesses on concrete inputs *)

Lemma generate_graph_zero_witness :
  (generate_graph (mkGraph [3] [1; 0]) (mkWorld (mkLcg 7) (mkTick 0) [] [])).1 = Raise ZeroDivisionError.
Proof.
  apply generate_graph_zero; [discriminate|].
  apply list_elem_of_In. simpl. auto.
Defined.

Lemma main_completes_witness :
  ∃ w' s t1 t2 outs, main (mkWorld (mkLcg 7) (mkTick 0) ["3"; " 2"] []) = (Ok tt, w')
    ∧ w_out w' = w_out (mkWorld (mkLcg 7) (mkTick 0) ["3"; " 2"] [])
                 ++ [Prompt size_prompt; Prompt threads_prompt; PrintSeq s t1; PrintPar 2 s t2] ++ outs ++ graph_footer.
Proof. apply (main_completes "3" " 2" [] 3 2); reflexivity || lia. Defined.

Lemma main_zero_threads_witness :
  ∃ w' s t, main (mkWorld (mkLcg 7) (mkTick 0) ["3"; "0"] []) = (Raise ZeroDivisionError, w')
    ∧ w_out w' = w_out (mkWorld (mkLcg 7) (mkTick 0) ["3"; "0"] [])
                 ++ [Prompt size_prompt; Prompt threads_prompt; PrintSeq s t].
Proof. apply (main_zero_threads "3" "0" [] 3); reflexivity. Defined.

Lemma main_negative_threads_witness :
  ∃ w' s t1 t2, main (mkWorld (mkLcg 7) (mkTick 0) ["3"; "-1"] []) = (Raise AssertionError, w')
    ∧ w_out w' = w_out (mkWorld (mkLcg 7) (mkTick 0) ["3"; "-1"] [])
                 ++ [Prompt size_prompt; Prompt threads_prompt; PrintSeq s t1; PrintPar (-1) 0 t2]
    ∧ 3 ≤ s.
Proof. apply (main_negative_threads "3" "-1" [] 3 (-1)); reflexivity || lia. Defined.

Lemma main_bad_input_witness :
  main (mkWorld (mkLcg 7) (mkTick 0) ["ten"; "2"] [])
  = (Raise ValueError, mkWorld (mkLcg 7) (mkTick 0) ["2"] [Prompt size_prompt]).
Proof. apply (main_bad_input "ten" ["2"]); reflexivity. Defined.
